(** * Learning KKL observers: a shallow embedding of the experiment scripts

    The repository's scripts ([experiments/0_supervised_revduffing.py],
    [experiments/5_supervised_qqs2_meas1.py]) drive a Luenberger-type KKL
    observer: data generation, training of the two transformation networks,
    simulation of the linear observer and ingestion of hardware data.

    Conventions of the embedding.
    - A torch/numpy scalar is an element of an arbitrary commutative ring
      [R] (exact arithmetic: rounding, infinities and NaN are outside the
      model).  Results that need ring laws take [ring_theory] as a
      hypothesis; the examples run at [Z].
    - A 1-D tensor is a [list R]; a 2-D tensor is the list of its rows; a
      batch of matrices (3-D tensor) is a list of 2-D tensors.
    - Functions of [learn_KKL], [torchdiffeq], [sklearn] and
      [pytorch_lightning] that the scripts call but that are not part of the
      scripts are section variables, or are modelled from the specification
      where a definition says so. *)

From Stdlib Require Import List ZArith QArith Qround Lia Ring Bool Arith Sorted.
Import ListNotations.
Close Scope Q_scope.

Set Implicit Arguments.

(** * Tensors as lists *)

Abbreviation Vec R := (list R) (only parsing).
Abbreviation Mat R := (list (list R)) (only parsing).

Section Tensor.

Variable R : Type.
Variables (rO rI : R) (radd rmul rsub : R -> R -> R) (ropp : R -> R).

(** Element-wise combination of two tensors of one shape ([a + b], [a - b]
    in torch); on lists the result stops with the shorter operand. *)
Fixpoint zipWith {A B C : Type} (f : A -> B -> C) (u : list A) (v : list B) : list C :=
  match u, v with
  | a :: u', b :: v' => f a b :: zipWith f u' v'
  | _, _ => []
  end.

Definition vadd (u v : Vec R) : Vec R := zipWith radd u v.
Definition vsub (u v : Vec R) : Vec R := zipWith rsub u v.
Definition tadd (a b : Mat R) : Mat R := zipWith vadd a b.
Definition tsub (a b : Mat R) : Mat R := zipWith vsub a b.

(** [sum_k u[k] * v[k]]. *)
Fixpoint dot (u v : Vec R) : R :=
  match u, v with
  | a :: u', b :: v' => radd (rmul a b) (dot u' v')
  | _, _ => rO
  end.

(** [M.t()]: entry [(k, j)] of the result is entry [(j, k)] of [M]; the
    number of columns is read off the first row. *)
Definition t (M : Mat R) : Mat R :=
  match M with
  | [] => []
  | r :: _ => map (fun k => map (fun row => nth k row rO) M) (seq 0 (length r))
  end.

(** [torch.matmul(a, b)] on 2-D tensors: entry [(i, j)] is the dot product
    of row [i] of [a] with column [j] of [b]. *)
Definition matmul (a b : Mat R) : Mat R :=
  map (fun row => map (fun col => dot row col) (t b)) a.

(** Matrix times column vector, [M · v]. *)
Definition matvec (M : Mat R) (v : Vec R) : Vec R := map (fun row => dot row v) M.

(** [torch.einsum("ijk,ik->ij", a, b)]: entry [(i, j)] is
    [sum_k a[i][j][k] * b[i][k]]. *)
Definition einsum_ijk_ik_ij (a : list (Mat R)) (b : Mat R) : Mat R :=
  zipWith (fun Ai bi => map (fun Aij => dot Aij bi) Ai) a b.

(** [torch.zeros((n, m))]. *)
Definition zeros (n m : nat) : Mat R := repeat (repeat rO m) n.

(** Shape of a 2-D tensor: [n] rows of [m] entries. *)
Definition has_shape (n m : nat) (M : Mat R) : Prop :=
  length M = n /\ Forall (fun row => length row = m) M.

End Tensor.

Arguments zeros {R} rO n m.

(** ** Facts about the tensor operations *)

Section TensorFacts.

Variable R : Type.
Variables (rO rI : R) (radd rmul rsub : R -> R -> R) (ropp : R -> R).
Hypothesis Rth : ring_theory rO rI radd rmul rsub ropp eq.

Add Ring Rring : Rth.

Lemma dot_comm (u v : Vec R) : dot rO radd rmul u v = dot rO radd rmul v u.
Proof.
  revert v; induction u as [|a u IH]; intros [|b v]; simpl; trivial.
  rewrite IH. ring.
Qed.

Lemma zipWith_length {A B C : Type} (f : A -> B -> C) u v :
  length (zipWith f u v) = Nat.min (length u) (length v).
Proof.
  revert v; induction u as [|a u IH]; intros [|b v]; simpl; auto.
Qed.

Lemma has_shape_cons n m (row : Vec R) (M : Mat R) :
  has_shape (S n) m (row :: M) <-> length row = m /\ has_shape n m M.
Proof.
  unfold has_shape; simpl; split.
  - intros [Hl Hf]. inversion Hf; subst. repeat split; auto.
  - intros [Hr [Hl Hf]]. split; [lia | constructor; auto].
Qed.

(** The rows of the transpose are the columns. *)
Lemma t_shape n m (M : Mat R) :
  0 < n -> has_shape n m M -> has_shape m n (t rO M).
Proof.
  intros Hn [Hl Hf]. destruct M as [|r M']; simpl in *; [lia|].
  inversion Hf as [|? ? Hr Hf']; subst.
  split.
  - rewrite length_map, length_seq. reflexivity.
  - apply Forall_forall. intros row Hin.
    apply in_map_iff in Hin. destruct Hin as [k [<- _]].
    simpl. now rewrite length_map.
Qed.

Lemma t_nth n m (M : Mat R) k j :
  has_shape n m M -> k < m -> j < n ->
  nth j (nth k (t rO M) []) rO = nth k (nth j M []) rO.
Proof.
  intros [Hl Hf] Hk Hj. destruct M as [|r M']; simpl in Hl; [lia|].
  assert (Hr : length r = m) by (inversion Hf; auto).
  unfold t. rewrite Hr.
  rewrite (nth_indep _ [] (map (fun row => nth 0 row rO) (r :: M')))
    by (rewrite length_map, length_seq; lia).
  rewrite (map_nth (fun k => map (fun row => nth k row rO) (r :: M'))
             (seq 0 m) 0 k).
  rewrite seq_nth by lia. simpl Nat.add.
  rewrite (nth_indep (map (fun row => nth k row rO) (r :: M')) rO (nth k [] rO))
    by (rewrite length_map; simpl; lia).
  apply (map_nth (fun row => nth k row rO)).
Qed.

(** Transposing twice gives the matrix back, for a matrix with at least
    one row and one column. *)
Lemma t_involutive n m (M : Mat R) :
  0 < n -> 0 < m -> has_shape n m M -> t rO (t rO M) = M.
Proof.
  intros Hn Hm HM.
  pose proof (t_shape Hn HM) as HT.
  pose proof (t_shape Hm HT) as HTT.
  destruct HM as [Hl Hf], HTT as [Hl2 Hf2].
  apply (nth_ext _ _ [] []); [congruence|].
  intros j Hj. rewrite Hl2 in Hj.
  assert (Hrow : length (nth j M []) = m).
  { rewrite Forall_forall in Hf. apply Hf, nth_In. lia. }
  assert (Hrow2 : length (nth j (t rO (t rO M)) []) = m).
  { rewrite Forall_forall in Hf2. apply Hf2, nth_In. lia. }
  apply (nth_ext _ _ rO rO); [congruence|].
  intros k Hk. rewrite Hrow2 in Hk.
  rewrite (t_nth (n:=m) (m:=n)); auto.
  apply (t_nth (n:=n) (m:=m)); auto. split; auto.
Qed.

(** [torch.matmul(z, D.t())] computes [D · z_i] for every row [z_i] of the
    batch [z]. *)
Lemma matmul_t_matvec n m (D : Mat R) (z : Mat R) :
  0 < n -> 0 < m -> has_shape n m D ->
  matmul rO radd rmul z (t rO D) = map (matvec rO radd rmul D) z.
Proof.
  intros Hn Hm HD. unfold matmul, matvec.
  rewrite (t_involutive Hn Hm HD).
  apply map_ext. intros row. apply map_ext. intros drow. apply dot_comm.
Qed.

Lemma vsub_diag (u : Vec R) : vsub rsub u u = repeat rO (length u).
Proof.
  induction u as [|a u IH]; simpl; trivial.
  unfold vsub in *. simpl. rewrite IH. f_equal. ring.
Qed.

Lemma vadd_zero_r (u : Vec R) k :
  length u <= k -> vadd radd u (repeat rO k) = u.
Proof.
  revert k; induction u as [|a u IH]; intros k Hk; simpl in *.
  - reflexivity.
  - destruct k as [|k]; [lia|]. unfold vadd in *. simpl.
    rewrite IH by lia. f_equal. ring.
Qed.

(** Adding a difference [b - b] changes nothing, as long as [b] has the
    shape of [a]. *)
Lemma tadd_tsub_diag n m (a b : Mat R) :
  has_shape n m a -> has_shape n m b ->
  tadd radd a (tsub rsub b b) = a.
Proof.
  revert n b; induction a as [|ra a IH]; intros n b Ha Hb.
  - reflexivity.
  - destruct n as [|n]; [destruct Ha; discriminate|].
    destruct b as [|rb b]; [destruct Hb; discriminate|].
    apply has_shape_cons in Ha, Hb. destruct Ha as [Hra Ha], Hb as [Hrb Hb].
    unfold tadd, tsub in *. simpl. rewrite (IH n b Ha Hb). f_equal.
    rewrite vsub_diag. apply vadd_zero_r. lia.
Qed.

End TensorFacts.

(** * The observer object and its simulation paths *)

Module Observer.

(** Failures a call can raise.  The ODE Integration Service reports an
    integration whose state exceeds the sanity bound. *)
Inductive Error : Type :=
| IntegrationDivergence.

Inductive Result (A : Type) : Type :=
| Ok (a : A)
| Raise (e : Error).

Arguments Ok {A} a.
Arguments Raise {A} e.

Definition bind {A B : Type} (r : Result A) (k : A -> Result B) : Result B :=
  match r with
  | Ok a => k a
  | Raise e => Raise e
  end.

Notation "x <- c ;; k" := (bind c (fun x => k))
  (at level 61, c at next level, right associativity).

Section Model.

Variable R : Type.
Variables (rO rI : R) (radd rmul rsub : R -> R -> R) (ropp : R -> R).

(** Solver configuration ([{'method': 'rk4', 'options': {'step_size': 1e-3}}]
    or [{'method': 'dopri5'}]); the scripts only pass it on. *)
Variable SolverOptions : Type.

(** [torch.arange(start, end, step)]. *)
Variable arange : R -> R -> R -> Vec R.

(** [torchdiffeq.odeint(func, y0, t, **options)]: the states at the times
    [t], each a batch (one row per initial condition), or a reported
    failure. *)
Variable odeint :
  (R -> Mat R -> Mat R) -> Mat R -> Vec R -> SolverOptions -> Result (list (Mat R)).

(** The attributes of [learn_KKL.luenberger_observer.LuenbergerObserver]
    that the scripts read.  The networks act on one sample (a row);
    [jacfwd_encoder x] is the Jacobian of the encoder at the sample [x], as
    [functorch.jacfwd] returns it ([dim_z] rows of [dim_x] entries);
    [f] and [h] are the system's vector field and output map on batches, as
    [set_dynamics] installs them; [interpolate_func y] is the measurement
    as a function of time. *)
Record LuenbergerObserver : Type := {
  dim_x : nat;
  dim_y : nat;
  dim_z : nat;
  D : Mat R;
  F : Mat R;
  encoder_net : Vec R -> Vec R;
  decoder_net : Vec R -> Vec R;
  jacfwd_encoder : Vec R -> Mat R;
  f : Mat R -> Mat R;
  h : Mat R -> Mat R;
  interpolate_func : Mat R -> R -> Mat R;
  solver_options : SolverOptions
}.

Variable self : LuenbergerObserver.

(** A network applied to a batch: row by row. *)
Definition encoder (x : Mat R) : Mat R := map (encoder_net self) x.
Definition decoder (z : Mat R) : Mat R := map (decoder_net self) z.

(** [vmap(jacfwd(self.encoder))(xhat)]. *)
Definition vmap_jacfwd_encoder (x : Mat R) : list (Mat R) :=
  map (jacfwd_encoder self) x.

Local Notation "a +t b" := (tadd radd a b) (at level 50, left associativity).
Local Notation "a -t b" := (tsub rsub a b) (at level 50, left associativity).
Local Abbreviation mm := (matmul rO radd rmul).
Local Abbreviation mv := (matvec rO radd rmul).
Local Abbreviation tr := (t rO).

(** ** The corrected dynamics (0_supervised_revduffing.py, lines 240-271) *)

(** The inner function [dydt(t, z)] of the replacement [simulate]. *)
Definition dydt (measurement : R -> Mat R) (t : R) (z : Mat R) : Mat R :=
  let xhat := decoder z in
  let zhat := encoder xhat in
  let dTdx := vmap_jacfwd_encoder xhat in
  let lhs := einsum_ijk_ik_ij rO radd rmul dTdx (f self xhat) in
  let rhs := mm zhat (tr (D self)) +t mm (h self xhat) (tr (F self)) in
  let z_dot :=
    mm z (tr (D self)) +t mm (measurement t) (tr (F self)) +t (lhs -t rhs) in
  z_dot.

(** The zero initial value [torch.zeros((1, self.dim_z))], unless one is
    given. *)
Definition initial_state (z_0 : option (Mat R)) : Mat R :=
  match z_0 with
  | None => zeros rO 1 (dim_z self)
  | Some z => z
  end.

(** The replacement [simulate(y, tsim, dt, z_0=None)] that the script
    installs on the model. *)
Definition simulate (y : Mat R) (tsim : R * R) (dt : R)
    (z_0 : option (Mat R)) : Result (Vec R * list (Mat R)) :=
  let tq := arange (fst tsim) (snd tsim) dt in
  let measurement := interpolate_func self y in
  let z_0 := initial_state z_0 in
  z <- odeint (dydt measurement) z_0 tq (solver_options self) ;;
  Ok (tq, z).

(** ** The default path *)

(** Modelled from the spec: the vector field of the model's own
    [simulate] (in [learn_KKL.luenberger_observer], not among the scripts),
    "the linear observer state ż = Dz + F·y(t)", on every row of the
    batch. *)
Definition observer_dynamics (measurement : R -> Mat R) (t : R) (z : Mat R) : Mat R :=
  map (mv (D self)) z +t map (mv (F self)) (measurement t).

(** Modelled from the spec: the model's own [simulate] method, which line
    274 replaces; it differs from the replacement above in the vector field
    only. *)
Definition model_simulate (y : Mat R) (tsim : R * R) (dt : R)
    (z_0 : option (Mat R)) : Result (Vec R * list (Mat R)) :=
  let tq := arange (fst tsim) (snd tsim) dt in
  let measurement := interpolate_func self y in
  let z_0 := initial_state z_0 in
  z <- odeint (observer_dynamics measurement) z_0 tq (solver_options self) ;;
  Ok (tq, z).

(** [sol[:, 0, :]]: the first row of every batch of the solution. *)
Definition first_of_batch (sol : list (Mat R)) : Mat R :=
  map (fun zb => nth 0 zb []) sol.

(** Modelled from the spec: [LuenbergerObserver.predict] (in [learn_KKL],
    not among the scripts): "integrates the linear observer state ... from
    a zero (or specified) initial condition over tsim at resolution dt using
    the ODE Integration Service, then decodes each resulting z".  The
    scripts read the result as a 2-D tensor, one row per time.  The
    simulation is the object's attribute [simulate] at the time of the
    call. *)
Definition predict_via
    (self_simulate : Mat R -> R * R -> R -> option (Mat R)
                     -> Result (Vec R * list (Mat R)))
    (y : Mat R) (tsim : R * R) (dt : R) (z_0 : option (Mat R)) : Result (Mat R) :=
  r <- self_simulate y tsim dt z_0 ;;
  let sol := snd r in
  Ok (decoder (first_of_batch sol)).

(** [predict] on an object whose [simulate] was not replaced. *)
Definition predict : Mat R -> R * R -> R -> option (Mat R) -> Result (Mat R) :=
  predict_via model_simulate.

(** Modelled from the spec: [pde_residual(x)], "the Jacobian of the
    encoder with respect to x ... contract[ed] with f(x), and compare[d]
    against D·encode(x) + F·h(x)", on every row of the batch. *)
Definition pde_lhs (x : Mat R) : Mat R :=
  zipWith mv (vmap_jacfwd_encoder x) (f self x).

Definition pde_rhs (x : Mat R) : Mat R :=
  map (mv (D self)) (encoder x) +t map (mv (F self)) (h self x).

Definition pde_residual (x : Mat R) : Mat R := pde_lhs x -t pde_rhs x.

(** The shapes torch needs for [dydt(t, z)] on a batch [z] of observer
    states: [D] is [dim_z × dim_z], [F] is [dim_z × dim_y], and the
    measurement and the output map have one row per row of the batch. *)
Definition dydt_shapes (measurement : R -> Mat R) (t : R) (z : Mat R) : Prop :=
  0 < dim_z self /\ 0 < dim_y self /\
  has_shape (dim_z self) (dim_z self) (D self) /\
  has_shape (dim_z self) (dim_y self) (F self) /\
  length (measurement t) = length z /\
  length (h self (decoder z)) = length z.

End Model.

Section Facts.

Variable R : Type.
Variables (rO rI : R) (radd rmul rsub : R -> R -> R) (ropp : R -> R).
Hypothesis Rth : ring_theory rO rI radd rmul rsub ropp eq.
Variable SolverOptions : Type.
Variable arange : R -> R -> R -> Vec R.
Variable odeint :
  (R -> Mat R -> Mat R) -> Mat R -> Vec R -> SolverOptions -> Result (list (Mat R)).
Variable self : LuenbergerObserver R SolverOptions.

Local Notation "a +t b" := (tadd radd a b) (at level 50, left associativity).
Local Abbreviation mv := (matvec rO radd rmul).

Lemma tadd_matvec_shape (A B : Mat R) n (X Y : Mat R) :
  length A = n -> length B = n -> length Y = length X ->
  has_shape (length X) n (map (mv A) X +t map (mv B) Y).
Proof.
  intros HA HB. revert Y. induction X as [|x X IH]; intros [|y Y] HY;
    simpl in HY; try discriminate.
  - split; [reflexivity | constructor].
  - simpl length. change (map (mv A) (x :: X) +t map (mv B) (y :: Y))
      with (vadd radd (mv A x) (mv B y) :: (map (mv A) X +t map (mv B) Y)).
    apply has_shape_cons. split; [|apply IH; lia].
    unfold vadd, matvec. rewrite zipWith_length, !length_map. lia.
Qed.

Lemma observer_dynamics_shape measurement t z :
  dydt_shapes self measurement t z ->
  has_shape (length z) (dim_z self)
    (observer_dynamics rO radd rmul self measurement t z).
Proof.
  intros (_ & _ & [HD _] & [HF _] & Hm & _).
  unfold observer_dynamics. now apply tadd_matvec_shape.
Qed.

Lemma pde_rhs_shape measurement t z :
  dydt_shapes self measurement t z ->
  has_shape (length z) (dim_z self)
    (pde_rhs rO radd rmul self (decoder self z)).
Proof.
  intros (_ & _ & [HD _] & [HF _] & _ & Hh).
  unfold pde_rhs.
  replace (length z) with (length (encoder self (decoder self z)))
    by (unfold encoder, decoder; now rewrite !length_map).
  apply tadd_matvec_shape; trivial.
  unfold encoder at 1, decoder at 2. now rewrite !length_map.
Qed.

(** The source's row convention [z · Dᵀ] against the column convention
    [D · z] of the specification. *)
Lemma dydt_matvec_form measurement t z :
  dydt_shapes self measurement t z ->
  dydt rO radd rmul rsub self measurement t z =
    observer_dynamics rO radd rmul self measurement t z
      +t pde_residual rO radd rmul rsub self (decoder self z).
Proof.
  intros (Hz & Hy & HD & HF & _).
  unfold dydt, observer_dynamics, pde_residual, pde_lhs, pde_rhs.
  rewrite !(fun b => matmul_t_matvec Rth b Hz Hz HD).
  rewrite !(fun b => matmul_t_matvec Rth b Hz Hy HF).
  reflexivity.
Qed.

(** C2.  For every observer state [z] and time [t], the vector field of the
    replacement [simulate] is the nominal observer dynamics [D·z + F·y(t)]
    plus the PDE residual of the encoder at [x_hat = decoder(z)],
    [dT/dx(x_hat)·f(x_hat) − (D·encode(x_hat) + F·h(x_hat))]; when the KKL
    PDE holds exactly at [decoder(z)], it is the vector field of the default
    path. *)
Theorem corrected_dynamics_nominal_plus_residual measurement t z :
  dydt_shapes self measurement t z ->
  dydt rO radd rmul rsub self measurement t z =
    observer_dynamics rO radd rmul self measurement t z
      +t pde_residual rO radd rmul rsub self (decoder self z)
  /\ (pde_lhs rO radd rmul self (decoder self z)
        = pde_rhs rO radd rmul self (decoder self z) ->
      dydt rO radd rmul rsub self measurement t z =
        observer_dynamics rO radd rmul self measurement t z).
Proof.
  intros Hs. pose proof (dydt_matvec_form Hs) as Hform.
  split; [exact Hform|].
  intros Hpde. rewrite Hform. unfold pde_residual. rewrite Hpde.
  apply (tadd_tsub_diag Rth (n := length z) (m := dim_z self)).
  - now apply observer_dynamics_shape.
  - now apply pde_rhs_shape with (measurement := measurement) (t := t).
Qed.


End Facts.

Open Scope Z_scope.

(** A one-dimensional observer over [Z]: [D = (-1)], [F = (1)], identity
    networks, [f = 0], [h(x) = x]; the KKL PDE [dT/dx·f = D·T + F·h] holds
    everywhere. *)
Definition demo_observer : LuenbergerObserver Z unit :=
  Build_LuenbergerObserver 1%nat 1%nat 1%nat [[-1]] [[1]]
    (fun x => x) (fun z => z) (fun _ => [[1]])
    (fun x => map (fun _ => [0]) x) (fun x => x)
    (fun y _ => y) tt.

Lemma demo_observer_shapes : dydt_shapes demo_observer (fun _ => [[7]]) 0 [[5]].
Proof.
  unfold dydt_shapes, has_shape; simpl.
  repeat split; try lia; repeat constructor.
Defined.

Lemma corrected_dynamics_witness :
  dydt 0 Z.add Z.mul Z.sub demo_observer (fun _ => [[7]]) 0 [[5]] = [[2]].
Proof.
  rewrite (proj2 (corrected_dynamics_nominal_plus_residual
                    InitialRing.Zth demo_observer_shapes)
             eq_refl).
  reflexivity.
Defined.

(** A forward Euler integration on the requested grid, as a stand-in for
    the ODE Integration Service, to run the model. *)
Fixpoint euler_from (func : Z -> Mat Z -> Mat Z) (z : Mat Z) (t0 : Z)
    (rest : list Z) : list (Mat Z) :=
  z :: match rest with
       | [] => []
       | t1 :: rest' =>
           let step := map (map (Z.mul (t1 - t0))) (func t0 z) in
           euler_from func (tadd Z.add z step) t1 rest'
       end.

Definition demo_odeint (func : Z -> Mat Z -> Mat Z) (z_0 : Mat Z)
    (tq : list Z) (_ : unit) : Result (list (Mat Z)) :=
  match tq with
  | [] => Ok []
  | t0 :: rest => Ok (euler_from func z_0 t0 rest)
  end.

Definition demo_arange (a b step : Z) : list Z :=
  map (fun i => a + Z.of_nat i * step)
      (seq 0 (Z.to_nat ((b - a + step - 1) / step))).

(** With the constant measurement [7], the observer state goes from [0] to
    the equilibrium [7] of [z' = -z + 7]. *)
Example predict_demo :
  predict 0 Z.add Z.mul demo_arange demo_odeint demo_observer [[7]] (0, 3) 1 None
    = Ok [[0]; [7]; [7]].
Proof. vm_compute. reflexivity. Qed.

Example predict_demo_from_given_state :
  predict 0 Z.add Z.mul demo_arange demo_odeint demo_observer [[7]] (0, 3) 1
    (Some [[10]]) = Ok [[10]; [7]; [7]].
Proof. vm_compute. reflexivity. Qed.

Close Scope Z_scope.

End Observer.

(** * Ingestion of the hardware recording
    (5_supervised_qqs2_meas1.py, lines 262-268) *)

Module Ingest.

Section Model.

Variable R : Type.
Variables (rO rI : R) (radd rmul rsub : R -> R -> R) (ropp : R -> R).

(** A 2-D numpy array: its rows and its number of columns (which an array
    without rows still has).  [np.genfromtxt] gives one row per line of
    the file; row 0 is the header line. *)
Record ndarray : Type := {
  ncols : nat;
  rows : Mat R
}.

(** [l[lo:hi]] for [0 <= lo <= hi]. *)
Definition slice {A : Type} (lo hi : nat) (l : list A) : list A :=
  firstn (hi - lo) (skipn lo l).

(** [l[1:-1]]: the stop [-1] counts from the end. *)
Definition slice_1_m1 {A : Type} (l : list A) : list A :=
  slice 1 (length l - 1) l.

(** [a[lo:hi, -1]]: the last entry of the selected rows; an array without
    columns has no index [-1]. *)
Definition rows_last (a : ndarray) (lo hi : nat) : option (Vec R) :=
  if Nat.eqb (ncols a) 0 then None
  else Some (map (fun r => last r rO) (slice lo hi (rows a))).

(** [a[i, -1]]. *)
Definition item_last (a : ndarray) (i : nat) : option R :=
  match nth_error (rows a) i with
  | None => None
  | Some r => if Nat.eqb (ncols a) 0 then None else Some (last r rO)
  end.

(** [system.remap_hardware], of [learn_KKL.system]. *)
Variable remap_hardware : Mat R -> Mat R.

(** [tq_exp = exp_data[1:2001, -1] - exp_data[1, -1]]. *)
Definition tq_exp (exp_data : ndarray) : option (Vec R) :=
  match rows_last exp_data 1 2001 with
  | None => None
  | Some col =>
      match item_last exp_data 1 with
      | None => None
      | Some t0 => Some (map (fun x => rsub x t0) col)
      end
  end.

(** [exp_data[1:2001, 1:-1]]. *)
Definition exp_window (exp_data : ndarray) : Mat R :=
  map slice_1_m1 (slice 1 2001 (rows exp_data)).

(** Lines 265-268: the time grid and the remapped data, or [None] for the
    [IndexError] of a file without a row 1 or without columns. *)
Definition ingest (exp_data : ndarray) : option (Vec R * Mat R) :=
  match tq_exp exp_data with
  | None => None
  | Some tq => Some (tq, remap_hardware (exp_window exp_data))
  end.






End Model.

Section Facts.

Variable R : Type.
Variables (rO rI : R) (radd rmul rsub : R -> R -> R) (ropp : R -> R).
Hypothesis Rth : ring_theory rO rI radd rmul rsub ropp eq.
Variable remap_hardware : Mat R -> Mat R.

Add Ring Rring_ingest : Rth.






End Facts.

Open Scope Z_scope.

(** A recording of three rows after the header: index, one angle, time. *)
Definition short_recording : ndarray Z :=
  {| ncols := 3;
     rows := [[0; 0; 0]; [1; 50; 104]; [2; 51; 108]; [3; 53; 112]] |}.




Close Scope Z_scope.

End Ingest.

(** * Building the training set (5_supervised_qqs2_meas1.py, lines 98-121;
      0_supervised_revduffing.py, lines 91-93) *)

Module Dataset.

Section Model.

(** A sample: one row [(x, z)] of the data tensor. *)
Variable Sample : Type.

(** The tensor of [generate_trajectory_data(..., stack=False)]: dimension 0
    is time, dimension 1 the trajectory; [data[t][j]] is the sample of
    trajectory [j] at the [t]-th time. *)
Definition Trajectories := list (list Sample).

(** [data[:, j]]. *)
Definition select_dim1 (j : nat) (data : Trajectories) : list Sample :=
  flat_map (fun slice =>
              match nth_error slice j with
              | Some a => [a]
              | None => []
              end) data.

(** [torch.unbind(data, dim=1)]. *)
Definition unbind_dim1 (data : Trajectories) : list (list Sample) :=
  map (fun j => select_dim1 j data) (seq 0 (length (hd [] data))).

(** [torch.cat(tensors, dim=0)]. *)
Definition cat_dim0 (tensors : list (list Sample)) : list Sample :=
  concat tensors.

(** Line 105: [data = torch.cat(torch.unbind(data, dim=1), dim=0)]. *)
Definition flatten_trajectories (data : Trajectories) : list Sample :=
  cat_dim0 (unbind_dim1 data).

(** [sklearn.model_selection.train_test_split(data, test_size=p/q,
    shuffle=...)]: the test set has [ceil(n·p/q)] samples and the training
    set the others.  Without shuffling the training set is the head of the
    data and the test set what follows; with shuffling the indices are
    taken from a random permutation [perm] of [0 .. n-1], the test indices
    first. *)
Definition n_test (p q n : nat) : nat := (n * p + (q - 1)) / q.

Definition take_indices (idx : list nat) (data : list Sample) : list Sample :=
  flat_map (fun i =>
              match nth_error data i with
              | Some a => [a]
              | None => []
              end) idx.

Definition train_test_split (data : list Sample) (p q : nat) (shuffle : bool)
    (perm : list nat) : list Sample * list Sample :=
  let n := length data in
  let nte := n_test p q n in
  let ntr := n - nte in
  if shuffle then
    (take_indices (firstn ntr (skipn nte perm)) data,
     take_indices (firstn nte perm) data)
  else
    (firstn ntr data, firstn nte (skipn ntr data)).

(** [add_forward = False] (line 65). *)
Definition add_forward : bool := false.

(** Lines 98-121 of the Quanser Qube script: the data come from
    trajectories ([traj_data]) or from [generate_data_svl]; both ways end
    in the one split of line 121, with [test_size=0.3, shuffle=False]. *)
Definition qqs2_dataset (traj_data : bool) (generated_trajectories : Trajectories)
    (generated_svl data_forward : list Sample) (perm : list nat)
    : list Sample * list Sample :=
  let data :=
    if traj_data then
      let data := flatten_trajectories generated_trajectories in
      if add_forward then data ++ data_forward else data
    else
      let data := generated_svl in
      if add_forward then data ++ data_forward else data
  in
  train_test_split data 3 10 false perm.

(** Lines 91-93 of the reversed Duffing script: samples of
    [generate_data_svl], split with [test_size=0.3, shuffle=True]. *)
Definition revduffing_dataset (generated_svl : list Sample) (perm : list nat)
    : list Sample * list Sample :=
  train_test_split generated_svl 3 10 true perm.

(** Every time slice holds one sample per trajectory. *)
Definition trajectory_shape (T N : nat) (data : Trajectories) : Prop :=
  length data = T /\ Forall (fun slice => length slice = N) data.

End Model.

Section Facts.

Variable Sample : Type.

Lemma select_dim1_nth_error T N (data : Trajectories Sample) j t :
  trajectory_shape T N data -> j < N ->
  nth_error (select_dim1 j data) t = nth_error (nth t data []) j.
Proof.
  intros [_ Hf] Hj. revert t.
  induction Hf as [|slice data Hs Hf IH]; intros t.
  - destruct t, j; reflexivity.
  - simpl. destruct (nth_error slice j) as [a|] eqn:E.
    + destruct t as [|t]; simpl; [now rewrite E | apply IH].
    + apply nth_error_None in E. lia.
Qed.

Lemma select_dim1_length T N (data : Trajectories Sample) j :
  trajectory_shape T N data -> j < N -> length (select_dim1 j data) = T.
Proof.
  intros [Hl Hf] Hj. subst T.
  induction Hf as [|slice data Hs Hf IH]; simpl; [reflexivity|].
  destruct (nth_error slice j) as [a|] eqn:E.
  - simpl. now rewrite IH.
  - apply nth_error_None in E. lia.
Qed.

Lemma concat_uniform_nth_error {A : Type} (ls : list (list A)) T j t :
  Forall (fun l => length l = T) ls -> t < T ->
  nth_error (concat ls) (j * T + t) = nth_error (nth j ls []) t.
Proof.
  intros Hf Ht. revert j.
  induction Hf as [|l ls Hl Hf IH]; intros j.
  - destruct j, t; simpl; trivial; now destruct (_ + _).
  - destruct j as [|j]; simpl.
    + apply nth_error_app1. lia.
    + rewrite nth_error_app2 by lia.
      replace (T + j * T + t - length l) with (j * T + t) by lia.
      apply IH.
Qed.

Lemma concat_uniform_length {A : Type} (ls : list (list A)) T :
  Forall (fun l => length l = T) ls -> length (concat ls) = length ls * T.
Proof.
  induction 1 as [|l ls Hl Hf IH]; simpl; [reflexivity|].
  rewrite length_app, IH, Hl. reflexivity.
Qed.

Lemma unbind_dim1_uniform T N (data : Trajectories Sample) :
  trajectory_shape T N data ->
  Forall (fun l => length l = T) (unbind_dim1 data).
Proof.
  intros Hs. unfold unbind_dim1. apply Forall_forall.
  intros l Hin. apply in_map_iff in Hin. destruct Hin as [j [<- Hj]].
  apply in_seq in Hj.
  destruct Hs as [Hl Hf]. destruct data as [|slice data].
  - simpl in *. now subst T.
  - apply (select_dim1_length (N := N)); [split; trivial|].
    inversion Hf; subst. simpl in Hj. lia.
Qed.

(** Position [j·T + t] of the flat data holds the sample of trajectory [j]
    at time [t]. *)
Lemma flatten_trajectories_nth_error T N (data : Trajectories Sample) j t :
  trajectory_shape T N data -> j < N -> t < T ->
  nth_error (flatten_trajectories data) (j * T + t)
    = nth_error (nth t data []) j.
Proof.
  intros Hs Hj Ht. unfold flatten_trajectories, cat_dim0.
  rewrite (concat_uniform_nth_error j (unbind_dim1_uniform Hs) Ht).
  assert (HN : length (hd [] data) = N).
  { destruct Hs as [Hl Hf]. destruct data as [|slice data];
      [simpl in Hl; lia | now inversion Hf]. }
  unfold unbind_dim1. rewrite HN.
  rewrite (nth_indep _ [] (select_dim1 0 data))
    by (now rewrite length_map, length_seq).
  rewrite (map_nth (fun j => select_dim1 j data) (seq 0 N) 0 j).
  rewrite seq_nth by trivial. simpl.
  now apply (select_dim1_nth_error (T := T) (N := N)).
Qed.

Lemma flatten_trajectories_length T N (data : Trajectories Sample) :
  trajectory_shape T N data -> 0 < T ->
  length (flatten_trajectories data) = N * T.
Proof.
  intros Hs HT. unfold flatten_trajectories, cat_dim0.
  rewrite (concat_uniform_length (unbind_dim1_uniform Hs)).
  unfold unbind_dim1. rewrite length_map, length_seq.
  destruct Hs as [Hl Hf]. destruct data as [|slice data];
    [simpl in Hl; lia | inversion Hf; subst; reflexivity].
Qed.

Lemma n_test_3_10_le n : n_test 3 10 n <= n.
Proof.
  unfold n_test. apply Nat.lt_succ_r, Nat.Div0.div_lt_upper_bound. lia.
Qed.

(** Without shuffling, the split cuts the data in two at one position. *)
Lemma train_test_split_unshuffled (data : list Sample) perm :
  train_test_split data 3 10 false perm =
    (firstn (length data - n_test 3 10 (length data)) data,
     skipn (length data - n_test 3 10 (length data)) data).
Proof.
  unfold train_test_split. f_equal.
  apply firstn_all2. rewrite length_skipn.
  pose proof (n_test_3_10_le (length data)). lia.
Qed.

(** C9.  In trajectory mode the flat data hold trajectory after
    trajectory, each in the order of its times (position [j·T + t] is the
    sample of trajectory [j] at time [t]); the split of line 121 does not
    shuffle: whatever the random permutation, the training set is the head
    of the flat data and the validation set the rest, in both modes of the
    Quanser Qube script.  Only the reversed Duffing script, which has no
    trajectory mode, takes its samples through the permutation. *)
Theorem trajectory_split_keeps_time_order T N (data : Trajectories Sample)
    (generated_svl data_forward : list Sample) (perm : list nat) :
  trajectory_shape T N data ->
  (forall j t, j < N -> t < T ->
     nth_error (flatten_trajectories data) (j * T + t)
       = nth_error (nth t data []) j)
  /\ qqs2_dataset true data generated_svl data_forward perm =
       (firstn (length (flatten_trajectories data)
                  - n_test 3 10 (length (flatten_trajectories data)))
          (flatten_trajectories data),
        skipn (length (flatten_trajectories data)
                 - n_test 3 10 (length (flatten_trajectories data)))
          (flatten_trajectories data))
  /\ qqs2_dataset false data generated_svl data_forward perm =
       (firstn (length generated_svl - n_test 3 10 (length generated_svl))
          generated_svl,
        skipn (length generated_svl - n_test 3 10 (length generated_svl))
          generated_svl)
  /\ revduffing_dataset generated_svl perm =
       (take_indices
          (firstn (length generated_svl - n_test 3 10 (length generated_svl))
             (skipn (n_test 3 10 (length generated_svl)) perm))
          generated_svl,
        take_indices (firstn (n_test 3 10 (length generated_svl)) perm)
          generated_svl).
Proof.
  intros Hs. split; [|split; [|split]].
  - intros j t Hj Ht. now apply flatten_trajectories_nth_error with (N := N).
  - unfold qqs2_dataset, add_forward. apply train_test_split_unshuffled.
  - unfold qqs2_dataset, add_forward. apply train_test_split_unshuffled.
  - reflexivity.
Qed.

End Facts.

(** Three trajectories of two samples; a sample is tagged with its
    trajectory and its time. *)
Definition demo_trajectories : Trajectories (nat * nat) :=
  [[(0, 0); (1, 0); (2, 0)];
   [(0, 1); (1, 1); (2, 1)]].

Lemma demo_trajectories_shape : trajectory_shape 2 3 demo_trajectories.
Proof.
  split; [reflexivity | repeat constructor].
Defined.

Example flatten_trajectories_demo :
  flatten_trajectories demo_trajectories
    = [(0, 0); (0, 1); (1, 0); (1, 1); (2, 0); (2, 1)].
Proof. reflexivity. Qed.

(** The shuffled split of the reversed Duffing script follows the
    permutation. *)
Example revduffing_dataset_demo :
  revduffing_dataset [10; 11; 12; 13; 14; 15] [5; 0; 3; 1; 4; 2]
    = ([13; 11; 14; 12], [15; 10]).
Proof. reflexivity. Qed.

Lemma trajectory_split_witness :
  qqs2_dataset true demo_trajectories [] [] [5; 4; 3; 2; 1; 0]
    = ([(0, 0); (0, 1); (1, 0); (1, 1)], [(2, 0); (2, 1)]).
Proof.
  rewrite (proj1 (proj2 (trajectory_split_keeps_time_order
                           [] [] [5; 4; 3; 2; 1; 0] demo_trajectories_shape))).
  reflexivity.
Defined.

End Dataset.

(** * The reversed Duffing script (0_supervised_revduffing.py, lines 76-233) *)

Module RevDuffing.

(** Which transformation a learner fits: [method='T'] or
    [method="T_star"]. *)
Inductive Method : Type := T | T_star.

(** Python objects are referred to by their address in the store. *)
Definition loc := nat.

(** What [Learner(...)] keeps of its arguments [training_data],
    [validation_data] and [method]: references, not copies. *)
Record Learner : Type := {
  training_data : loc;
  validation_data : loc;
  method : Method
}.

Section Script.

(** The contents of a tensor. *)
Variable Tensor : Type.

Definition Store := list Tensor.

(** What happened, in order.  A fit records the contents it found in its
    learner's training and validation tensors. *)
Inductive Event : Type :=
| Generated (data : loc)
| Split (source train val : loc)
| Constructed (l : Learner)
| Fitted (l : Learner) (train_seen val_seen : option Tensor)
| Saved (l : Learner).

Record State : Type := {
  store : Store;
  trace : list Event
}.

(** State-passing computations. *)
Definition M (A : Type) : Type := State -> A * State.

Definition ret {A : Type} (a : A) : M A := fun s => (a, s).

Definition bind {A B : Type} (m : M A) (k : A -> M B) : M B :=
  fun s => let (a, s') := m s in k a s'.

Notation "x <- c ;; k" := (bind c (fun x => k))
  (at level 61, c at next level, right associativity).
Notation "c ;;; k" := (bind c (fun _ => k))
  (at level 61, right associativity).

Definition alloc (t : Tensor) : M loc :=
  fun s => (length (store s),
            {| store := store s ++ [t]; trace := trace s |}).

Definition read (l : loc) : M (option Tensor) :=
  fun s => (nth_error (store s) l, s).

Definition log (e : Event) : M unit :=
  fun s => (tt, {| store := store s; trace := trace s ++ [e] |}).

Definition effect (g : Store -> Store) : M unit :=
  fun s => (tt, {| store := g (store s); trace := trace s |}).

(** The calls into [learn_KKL], [sklearn] and [pytorch_lightning]:
    the tensor [generate_data_svl] returns, the two parts
    [train_test_split] cuts a tensor into, and what constructing, fitting
    and saving a learner do to the objects of the store. *)
Variable generated : Tensor.
Variable split_contents : Tensor -> Tensor * Tensor.
Variable learner_init : Learner -> Store -> Store.
Variable trainer_fit : Learner -> Store -> Store.
Variable save_results_effect : Learner -> Store -> Store.

(** Line 91: [data = observer.generate_data_svl(...)]. *)
Definition generate_data_svl : M loc :=
  d <- alloc generated ;;
  log (Generated d) ;;;
  ret d.

(** Line 93: [data, val_data = train_test_split(data, ...)]; the parts are
    new tensors. *)
Definition train_test_split (data : loc) : M (loc * loc) :=
  c <- read data ;;
  match c with
  | None => ret (data, data)
  | Some t =>
      tr <- alloc (fst (split_contents t)) ;;
      va <- alloc (snd (split_contents t)) ;;
      log (Split data tr va) ;;;
      ret (tr, va)
  end.

(** Lines 124-136 and 179-191: [Learner(observer=..., training_data=data,
    validation_data=val_data, method=..., ...)]. *)
Definition new_Learner (data val_data : loc) (m : Method) : M Learner :=
  let l := {| training_data := data; validation_data := val_data; method := m |} in
  effect (learner_init l) ;;;
  log (Constructed l) ;;;
  ret l.

(** Lines 154 and 209: [trainer.fit(learner)]. *)
Definition fit (l : Learner) : M unit :=
  tr <- read (training_data l) ;;
  va <- read (validation_data l) ;;
  log (Fitted l tr va) ;;;
  effect (trainer_fit l).

(** Lines 160 and 231: [learner.save_results(...)]. *)
Definition save_results (l : Learner) : M unit :=
  effect (save_results_effect l) ;;;
  log (Saved l).

(** The script with [TRAIN = True], up to line 233. *)
Definition main : M (Learner * Learner) :=
  data <- generate_data_svl ;;
  parts <- train_test_split data ;;
  let data := fst parts in
  let val_data := snd parts in
  learner_T <- new_Learner data val_data T ;;
  fit learner_T ;;;
  save_results learner_T ;;;
  learner_T_star <- new_Learner data val_data T_star ;;
  fit learner_T_star ;;;
  save_results learner_T_star ;;;
  ret (learner_T, learner_T_star).

Definition initial : State := {| store := []; trace := [] |}.

(** A call leaves the training and validation tensors of the learners
    alone: it may create objects and change others. *)
Definition keeps (l : loc) (g : Store -> Store) : Prop :=
  forall s t, nth_error s l = Some t -> nth_error (g s) l = Some t.

Definition library_keeps (l : loc) : Prop :=
  forall b : Learner,
    keeps l (learner_init b) /\ keeps l (trainer_fit b)
    /\ keeps l (save_results_effect b).

(** An event without the contents a fit found. *)
Definition outline (e : Event) : Event :=
  match e with
  | Fitted l _ _ => Fitted l None None
  | _ => e
  end.

(** C10.  Both learners are constructed with the same two tensor objects,
    the parts of the one [train_test_split], which comes before either
    fit; and if the library calls leave these two tensors alone, both fits
    find the same contents in them: the two parts of the generated data. *)
Theorem learners_share_the_single_split :
  fst (main initial) =
    ({| training_data := 1; validation_data := 2; method := T |},
     {| training_data := 1; validation_data := 2; method := T_star |})
  /\ map outline (trace (snd (main initial))) =
       [ Generated 0; Split 0 1 2;
         Constructed (fst (fst (main initial)));
         Fitted (fst (fst (main initial))) None None;
         Saved (fst (fst (main initial)));
         Constructed (snd (fst (main initial)));
         Fitted (snd (fst (main initial))) None None;
         Saved (snd (fst (main initial))) ]
  /\ (library_keeps 1 -> library_keeps 2 ->
      forall l tr va,
        In (Fitted l tr va) (trace (snd (main initial))) ->
        tr = Some (fst (split_contents generated))
        /\ va = Some (snd (split_contents generated))).
Proof.
  split; [reflexivity|]. split; [reflexivity|].
  intros K1 K2 l tr va Hin.
  pose (lT := {| training_data := 1; validation_data := 2; method := T |}).
  pose (lS := {| training_data := 1; validation_data := 2; method := T_star |}).
  destruct (K1 lT) as (K1i & K1f & K1s), (K2 lT) as (K2i & K2f & K2s).
  destruct (K1 lS) as (K1i' & _), (K2 lS) as (K2i' & _).
  pose (s0 := [generated; fst (split_contents generated);
               snd (split_contents generated)]).
  pose (s1 := learner_init lT s0).
  pose (s2 := learner_init lS (save_results_effect lT (trainer_fit lT s1))).
  assert (Htrace : trace (snd (main initial)) =
            [ Generated 0; Split 0 1 2; Constructed lT;
              Fitted lT (nth_error s1 1) (nth_error s1 2); Saved lT;
              Constructed lS;
              Fitted lS (nth_error s2 1) (nth_error s2 2); Saved lS ])
    by reflexivity.
  rewrite Htrace in Hin. clear Htrace.
  assert (H11 : nth_error s1 1 = Some (fst (split_contents generated)))
    by (apply K1i; reflexivity).
  assert (H12 : nth_error s1 2 = Some (snd (split_contents generated)))
    by (apply K2i; reflexivity).
  assert (H21 : nth_error s2 1 = Some (fst (split_contents generated)))
    by (apply K1i', K1s, K1f, H11).
  assert (H22 : nth_error s2 2 = Some (snd (split_contents generated)))
    by (apply K2i', K2s, K2f, H12).
  rewrite H11, H12, H21, H22 in Hin. simpl in Hin.
  repeat (destruct Hin as [Hin|Hin]; try discriminate; try contradiction);
    inversion Hin; subst; split; reflexivity.
Qed.

End Script.

(** A run in which constructing a learner and fitting it create new
    objects. *)
Definition demo_split (t : list nat) : list nat * list nat :=
  (firstn 3 t, skipn 3 t).

Definition demo_init (_ : Learner) (s : Store (list nat)) : Store (list nat) :=
  s ++ [[0]].

Definition demo_fit (_ : Learner) (s : Store (list nat)) : Store (list nat) :=
  s ++ [[9; 9]].

Definition demo_save (_ : Learner) (s : Store (list nat)) : Store (list nat) := s.

Lemma demo_library_keeps l :
  library_keeps demo_init demo_fit demo_save l.
Proof.
  intros b. unfold keeps, demo_init, demo_fit, demo_save.
  repeat split; intros s t H; trivial;
    (rewrite nth_error_app1; [exact H | apply nth_error_Some; congruence]).
Defined.

(** The second fit of the demo run finds the two parts of the split. *)
Lemma learners_share_witness :
  library_keeps demo_init demo_fit demo_save 1
  /\ library_keeps demo_init demo_fit demo_save 2
  /\ In (Fitted {| training_data := 1; validation_data := 2; method := T_star |}
          (Some [1; 2; 3]) (Some [4]))
        (trace (snd (main [1; 2; 3; 4] demo_split demo_init demo_fit demo_save
                       (initial (list nat)))))
  /\ (Some [1; 2; 3] = Some (fst (demo_split [1; 2; 3; 4]))
      /\ Some [4] = Some (snd (demo_split [1; 2; 3; 4]))).
Proof.
  assert (Hin : In (Fitted {| training_data := 1; validation_data := 2;
                              method := T_star |} (Some [1; 2; 3]) (Some [4]))
                   (trace (snd (main [1; 2; 3; 4] demo_split demo_init
                                  demo_fit demo_save (initial (list nat))))))
    by (vm_compute; tauto).
  repeat apply conj; try apply demo_library_keeps; try exact Hin;
    apply (proj2 (proj2 (learners_share_the_single_split
                           [1; 2; 3; 4] demo_split demo_init demo_fit
                           demo_save))
             (demo_library_keeps 1) (demo_library_keeps 2) _ _ _ Hin).
Defined.

End RevDuffing.

(** * Retention of the best checkpoint
    ([ModelCheckpoint(monitor='val_loss')], lines 141 and 196 of
    0_supervised_revduffing.py, line 185 of 5_supervised_qqs2_meas1.py) *)

Module Checkpoint.

Section Model.

(** The parameters of the model, as a checkpoint file holds them. *)
Variable ModelState : Type.

(** Modelled from the spec: the callback of [pytorch_lightning] (not part
    of the repository), "best-validation-loss model state is retained
    separately from the live training state".  It holds the best monitored
    value so far and the snapshot saved with it; [best_model_path] is what
    the scripts hand to [save_results]. *)
Record ModelCheckpoint : Type := {
  best_model_score : option Q;
  best_model_path : option ModelState
}.

Definition new_checkpoint : ModelCheckpoint :=
  {| best_model_score := None; best_model_path := None |}.

(** One validation check: the monitored [val_loss] and the live state of
    the model at that moment.  The snapshot is replaced when the loss is
    strictly below the best one so far. *)
Definition on_validation_end (ck : ModelCheckpoint) (check : Q * ModelState)
    : ModelCheckpoint :=
  let save := {| best_model_score := Some (fst check);
                 best_model_path := Some (snd check) |} in
  match best_model_score ck with
  | None => save
  | Some best => if Qle_bool best (fst check) then ck else save
  end.

(** The validation checks of one run of [trainer.fit], in order. *)
Definition fit (checks : list (Q * ModelState)) : ModelCheckpoint :=
  fold_left on_validation_end checks new_checkpoint.

(** What the callback holds after some checks: the least loss among them
    and a snapshot taken at a check with that loss. *)
Definition retains_minimum (checks : list (Q * ModelState))
    (ck : ModelCheckpoint) : Prop :=
  exists m st,
    best_model_score ck = Some m /\ best_model_path ck = Some st
    /\ In (m, st) checks
    /\ forall v s, In (v, s) checks -> (m <= v)%Q.

End Model.

Section Facts.

Variable ModelState : Type.

Lemma fit_snoc (checks : list (Q * ModelState)) c :
  fit (checks ++ [c]) = on_validation_end (fit checks) c.
Proof.
  unfold fit. now rewrite fold_left_app.
Qed.

Lemma on_validation_end_first (c : Q * ModelState) :
  retains_minimum [c] (on_validation_end (new_checkpoint ModelState) c).
Proof.
  destruct c as [v s]. exists v, s. simpl. repeat split; auto.
  intros v' s' [E|[]]. inversion E; subst. apply Qle_refl.
Qed.

Lemma on_validation_end_next (checks : list (Q * ModelState)) ck c :
  retains_minimum checks ck ->
  retains_minimum (checks ++ [c]) (on_validation_end ck c).
Proof.
  intros (m & st & Hm & Hp & Hin & Hmin). destruct c as [v s].
  unfold on_validation_end. rewrite Hm. simpl.
  destruct (Qle_bool m v) eqn:E.
  - apply Qle_bool_iff in E. exists m, st. repeat split; trivial.
    + apply in_or_app. now left.
    + intros v' s' Hin'. apply in_app_or in Hin'.
      destruct Hin' as [Hin'|[Heq|[]]]; [now apply (Hmin v' s')|].
      now inversion Heq; subst.
  - assert (Hlt : (v < m)%Q).
    { apply Qnot_le_lt. intros Hle. apply Qle_bool_iff in Hle. congruence. }
    exists v, s. simpl. repeat split; trivial.
    + apply in_or_app. right. now left.
    + intros v' s' Hin'. apply in_app_or in Hin'.
      destruct Hin' as [Hin'|[Heq|[]]].
      * apply Qle_trans with m; [now apply Qlt_le_weak | now apply (Hmin v' s')].
      * inversion Heq; subst. apply Qle_refl.
Qed.

Lemma fit_retains_minimum (checks : list (Q * ModelState)) c :
  retains_minimum (checks ++ [c]) (fit (checks ++ [c])).
Proof.
  revert c. induction checks as [|c' checks IH] using rev_ind; intros c.
  - apply on_validation_end_first.
  - rewrite fit_snoc. apply on_validation_end_next, IH.
Qed.

(** C7.  After every validation check the retained score is the least
    validation loss seen so far, the retained snapshot was taken at a check
    with that loss, and the score is not above the one retained before the
    check. *)
Theorem best_checkpoint_never_regresses (checks : list (Q * ModelState))
    (c : Q * ModelState) :
  retains_minimum (checks ++ [c]) (fit (checks ++ [c]))
  /\ forall before,
       best_model_score (fit checks) = Some before ->
       exists after,
         best_model_score (fit (checks ++ [c])) = Some after
         /\ (after <= before)%Q.
Proof.
  split; [apply fit_retains_minimum|].
  intros before Hb. rewrite fit_snoc. unfold on_validation_end. rewrite Hb.
  destruct (Qle_bool before (fst c)) eqn:E.
  - exists before. split; [exact Hb | apply Qle_refl].
  - exists (fst c). split; [reflexivity|].
    apply Qlt_le_weak, Qnot_le_lt. intros Hle.
    apply Qle_bool_iff in Hle. congruence.
Qed.

End Facts.

(** Five validation checks; the snapshot kept is the one of the fourth
    check, not the last one. *)
Example fit_demo :
  fit [((5 # 1)%Q, 0); ((3 # 1)%Q, 1); ((4 # 1)%Q, 2); ((2 # 1)%Q, 3);
       ((6 # 1)%Q, 4)]
    = {| best_model_score := Some (2 # 1)%Q; best_model_path := Some 3 |}.
Proof. vm_compute. reflexivity. Qed.

End Checkpoint.

(** * The data generator ([generate_data_svl], called on lines 91 and 287 of
      0_supervised_revduffing.py and line 113 of 5_supervised_qqs2_meas1.py) *)

Module DataGenerator.

Import Observer.

(** [method="uniform"] or [method="LHS"]. *)
Inductive Method : Type := uniform | LHS.

(** A point of the state space; per-dimension bounds [(low, high)]. *)
Abbreviation Point := (list Q) (only parsing).
Abbreviation Limits := (list (Q * Q)) (only parsing).

(** [n] evenly spaced values from [low] to [high], both included. *)
Definition linspace (n : nat) (b : Q * Q) : list Q :=
  map (fun i => (fst b + inject_Z (Z.of_nat i)
                         * ((snd b - fst b) / inject_Z (Z.of_nat (n - 1))))%Q)
      (seq 0 n).

(** All combinations of one value per axis, the first axis slowest. *)
Fixpoint cartesian (axes : list (list Q)) : list (list Q) :=
  match axes with
  | [] => [[]]
  | axis :: rest => flat_map (fun a => map (cons a) (cartesian rest)) axis
  end.

(** The regular grid with [n] points per axis over the bounds. *)
Definition regular_grid (n : nat) (limits : Limits) : list (list Q) :=
  cartesian (map (linspace n) limits).

(** The least [k >= k0] with [p k], looking at [fuel] candidates. *)
Fixpoint search (p : nat -> bool) (fuel k0 : nat) : nat :=
  match fuel with
  | 0 => k0
  | S fuel' => if p k0 then k0 else search p fuel' (S k0)
  end.

(** The least [k] with [k ^ d >= m]: the points per axis of the smallest
    grid of dimension [d] that holds [m] points. *)
Definition points_per_axis (d m : nat) : nat :=
  search (fun k => m <=? k ^ d) m 0.

(** The centre of stratum [s] out of [n] strata of [(low, high)]. *)
Definition stratum_centre (n : nat) (b : Q * Q) (s : nat) : Q :=
  (fst b + inject_Z (2 * Z.of_nat s + 1)
           * ((snd b - fst b) / inject_Z (2 * Z.of_nat n)))%Q.

(** Modelled from the spec: the sampling of [generate_data_svl] (in
    [learn_KKL], not among the scripts), which "draws num_samples points
    in state space using either a Latin Hypercube Sample design or a
    regular grid over given per-dimension bounds".  The grid is the
    smallest one that holds [num_samples] points, cut to that number; the
    Latin hypercube puts point [i] into stratum [strata[d][i]] of
    dimension [d], where [strata] comes from the random source. *)
Definition generate_mesh (limits : Limits) (num_samples : nat) (method : Method)
    (strata : list (list nat)) : list (list Q) :=
  match method with
  | uniform =>
      firstn num_samples
        (regular_grid (points_per_axis (length limits) num_samples) limits)
  | LHS =>
      map (fun i =>
             map (fun bs => stratum_centre num_samples (fst bs) (nth i (snd bs) 0))
                 (combine limits strata))
          (seq 0 num_samples)
  end.

Section Generator.

(** The observer state paired with a point. *)
Variable ZState : Type.

(** Integration of the augmented system from a sampled point, keeping the
    observer state of the tail: the state, or the failure the ODE
    Integration Service reports. *)
Variable simulate_system : Point -> Result ZState.

(** The samples generated so far, and the points handed to the
    integration, in order. *)
Record Progress : Type := {
  samples : list (Point * ZState);
  integrated : list Point
}.

(** One sampled point: it is integrated once; a divergent one adds no
    sample. *)
Definition generate_one (p : Progress) (x : Point) : Progress :=
  match simulate_system x with
  | Ok z => {| samples := samples p ++ [(x, z)];
               integrated := integrated p ++ [x] |}
  | Raise IntegrationDivergence =>
      {| samples := samples p; integrated := integrated p ++ [x] |}
  end.

(** Modelled from the spec: [generate_data_svl(limits, num_samples,
    method)], "for each point, the augmented (true+observer) system is
    integrated forward", and "if a sampled initial condition produces
    divergent integration, the sample is dropped, not substituted". *)
Definition generate_data_svl_run (limits : Limits) (num_samples : nat)
    (method : Method) (strata : list (list nat)) : Progress :=
  fold_left generate_one (generate_mesh limits num_samples method strata)
    {| samples := []; integrated := [] |}.

Definition generate_data_svl (limits : Limits) (num_samples : nat)
    (method : Method) (strata : list (list nat)) : list (Point * ZState) :=
  samples (generate_data_svl_run limits num_samples method strata).

Definition diverges (x : Point) : Prop :=
  simulate_system x = Raise IntegrationDivergence.


(** What one point contributes to the data. *)
Definition kept (x : Point) : list (Point * ZState) :=
  match simulate_system x with
  | Ok z => [(x, z)]
  | Raise _ => []
  end.


End Generator.

Section Facts.

Variable ZState : Type.
Variable simulate_system : Point -> Result ZState.













End Facts.

Open Scope Q_scope.






Close Scope Q_scope.

End DataGenerator.

(** * Further properties of the scripts *)

From Stdlib Require Import Permutation.
From Stdlib Require String.

(** * Further properties of the ingestion
    (5_supervised_qqs2_meas1.py, lines 265-276) *)

Module IngestShapes.

Import Ingest.

Section Model.

Variable R : Type.

(** [v.unsqueeze(1)]: a column. *)
Definition unsqueeze_1 (v : Vec R) : Mat R := map (fun x => [x]) v.

(** [torch.cat((a, b), dim=1)] on 2-D tensors: the rows of [b] appended to
    the rows of [a]; torch refuses operands with different numbers of
    rows. *)
Definition cat_dim1 (a b : Mat R) : option (Mat R) :=
  if Nat.eqb (length a) (length b) then Some (zipWith (@app R) a b) else None.

(** Lines 271 and 276: [torch.cat((tq.unsqueeze(1), data), dim=1)]. *)
Definition with_time_column (tq : Vec R) (data : Mat R) : option (Mat R) :=
  cat_dim1 (unsqueeze_1 tq) data.

(** sim2real_plot_qqs2.py, lines 29-34: the same window of the file,
    remapped, and its first row as the initial state [x0 = exp[0]];
    [None] for the [IndexError] of a window without rows. *)
Definition sim2real_x0 (remap_hardware : Mat R -> Mat R)
    (exp : Ingest.ndarray R) : option (Vec R) :=
  nth_error (remap_hardware (Ingest.exp_window exp)) 0.

(** The array has the number of columns it says. *)
Definition rectangular (a : ndarray R) : Prop :=
  Forall (fun r => length r = ncols a) (rows a).

End Model.

Section Facts.

Variable R : Type.
Variables (rO : R) (rsub : R -> R -> R).
Variable remap_hardware : Mat R -> Mat R.


Lemma In_slice {A : Type} (lo hi : nat) (l : list A) x :
  In x (slice lo hi l) -> In x l.
Proof.
  unfold slice. intros H.
  rewrite <- (firstn_skipn lo l). apply in_or_app. right.
  rewrite <- (firstn_skipn (hi - lo) (skipn lo l)). apply in_or_app. now left.
Qed.

Lemma slice_1_m1_length (r : Vec R) : length (slice_1_m1 r) = length r - 2.
Proof.
  unfold slice_1_m1, slice. rewrite length_firstn, length_skipn. lia.
Qed.

(** The time grid has one entry per row of the data window, and every row
    of the window has two entries fewer than the rows of the file. *)
Theorem ingest_window_aligned (a : ndarray R) (tq : Vec R) :
  rectangular a ->
  tq_exp rO rsub a = Some tq ->
  length tq = length (exp_window a)
  /\ length tq = Nat.min 2000 (length (rows a) - 1)
  /\ Forall (fun r => length r = ncols a - 2) (exp_window a).
Proof.
  intros Hrect Htq. unfold tq_exp, rows_last in Htq.
  destruct (Nat.eqb (ncols a) 0); [discriminate|].
  destruct (item_last rO a 1); [|discriminate].
  injection Htq as <-. unfold exp_window, slice.
  rewrite !length_map, length_firstn, length_skipn.
  split; [reflexivity|]. split; [reflexivity|].
  apply Forall_forall. intros row Hin.
  apply in_map_iff in Hin. destruct Hin as [row' [<- Hin]].
  rewrite slice_1_m1_length. f_equal.
  unfold rectangular in Hrect. rewrite Forall_forall in Hrect.
  apply Hrect. apply (In_slice 1 2001), Hin.
Qed.

Lemma zipWith_app_unsqueeze (tq : Vec R) (data : Mat R) :
  length tq = length data ->
  map (fun r => hd_error r) (zipWith (@app R) (unsqueeze_1 tq) data)
    = map Some tq
  /\ map (@tl R) (zipWith (@app R) (unsqueeze_1 tq) data) = data.
Proof.
  revert data. induction tq as [|x tq IH]; intros [|r data] H;
    simpl in H; try discriminate.
  - split; reflexivity.
  - destruct (IH data) as [IH1 IH2]; [lia|].
    simpl. fold (unsqueeze_1 tq). rewrite IH1, IH2. split; reflexivity.
Qed.

(** Putting the time column in front succeeds exactly when the grid and
    the data have the same number of rows; the first column of the result
    is then the grid, and the other columns are the data. *)
Theorem with_time_column_round_trip (tq : Vec R) (data : Mat R) :
  (forall y, with_time_column tq data = Some y ->
     map (fun r => hd_error r) y = map Some tq /\ map (@tl R) y = data)
  /\ (with_time_column tq data = None <-> length tq <> length data).
Proof.
  unfold with_time_column, cat_dim1, unsqueeze_1. rewrite length_map.
  destruct (Nat.eqb_spec (length tq) (length data)) as [E|E].
  - split.
    + intros y [= <-]. now apply zipWith_app_unsqueeze.
    + split; [discriminate | contradiction].
  - split; [discriminate | split; trivial].
Qed.

(** Lines 265-271 together: when [remap_hardware] keeps the number of
    rows, the ingested grid and data always fit together into [t_exp]. *)
Theorem ingested_t_exp_defined (a : ndarray R) (tq : Vec R) (data : Mat R) :
  (forall m, length (remap_hardware m) = length m) ->
  ingest rO rsub remap_hardware a = Some (tq, data) ->
  exists t_exp,
    with_time_column tq data = Some t_exp
    /\ length t_exp = Nat.min 2000 (length (rows a) - 1)
    /\ map (fun r => hd_error r) t_exp = map Some tq.
Proof.
  intros Hremap Hin. unfold ingest in Hin.
  destruct (tq_exp rO rsub a) as [tq'|] eqn:Htq; [|discriminate].
  injection Hin as <- <-.
  assert (Hlen : length tq' = length (remap_hardware (exp_window a))
                 /\ length tq' = Nat.min 2000 (length (rows a) - 1)).
  { rewrite Hremap. unfold tq_exp, rows_last in Htq.
    destruct (Nat.eqb (ncols a) 0); [discriminate|].
    destruct (item_last rO a 1); [|discriminate].
    injection Htq as <-. unfold exp_window, slice.
    rewrite !length_map, length_firstn, length_skipn. split; reflexivity. }
  destruct Hlen as [Hl1 Hl2].
  unfold with_time_column, cat_dim1, unsqueeze_1. rewrite length_map.
  rewrite (proj2 (Nat.eqb_eq _ _) Hl1).
  eexists. split; [reflexivity|]. split.
  - rewrite zipWith_length, length_map, <- Hl1, Nat.min_id. exact Hl2.
  - now apply zipWith_app_unsqueeze.
Qed.


End Facts.

Open Scope Z_scope.


Example sim2real_x0_demo :
  sim2real_x0 (fun m => m) short_recording = Some [50].
Proof. reflexivity. Qed.

Lemma short_recording_rectangular : rectangular short_recording.
Proof. repeat constructor. Defined.

Lemma ingest_window_aligned_witness :
  length [0; 4; 8] = length (exp_window short_recording)
  /\ length [0; 4; 8] = Nat.min 2000 (length (rows short_recording) - 1)
  /\ Forall (fun r => length r = (ncols short_recording - 2)%nat)
       (exp_window short_recording).
Proof.
  apply (ingest_window_aligned 0 Z.sub short_recording_rectangular eq_refl).
Defined.

Lemma ingested_t_exp_witness :
  exists t_exp,
    with_time_column [0; 4; 8] [[50]; [51]; [53]] = Some t_exp
    /\ length t_exp = Nat.min 2000 (length (rows short_recording) - 1)
    /\ map (fun r => hd_error r) t_exp = map Some [0; 4; 8].
Proof.
  apply (ingested_t_exp_defined 0 Z.sub (fun m => m) short_recording
           (fun m => eq_refl) eq_refl).
Defined.

Example with_time_column_demo :
  with_time_column [0; 4; 8] [[50]; [51]; [53]]
    = Some [[0; 50]; [4; 51]; [8; 53]].
Proof. reflexivity. Qed.

Close Scope Z_scope.

End IngestShapes.

(** * Further properties of the corrected dynamics
    (0_supervised_revduffing.py, lines 240-271) *)

Module CorrectedDynamics.

Import Observer.

Section Facts.

Variable R : Type.
Variables (rO rI : R) (radd rmul rsub : R -> R -> R) (ropp : R -> R).
Hypothesis Rth : ring_theory rO rI radd rmul rsub ropp eq.
Variable SolverOptions : Type.
Variable arange : R -> R -> R -> Vec R.
Variable odeint :
  (R -> Mat R -> Mat R) -> Mat R -> Vec R -> SolverOptions -> Result (list (Mat R)).
Variable self : LuenbergerObserver R SolverOptions.

Add Ring Rring_dyn : Rth.

Local Notation "a +t b" := (tadd radd a b) (at level 50, left associativity).
Local Notation "a -t b" := (tsub rsub a b) (at level 50, left associativity).
Local Abbreviation mv := (matvec rO radd rmul).

(** The shapes of the Jacobian term: the vector field [f] returns one row
    per state, and every Jacobian has [dim_z] rows. *)
Definition jacobian_shapes (z : Mat R) : Prop :=
  length (f self (decoder self z)) = length z
  /\ Forall (fun x => length (jacfwd_encoder self x) = dim_z self)
       (decoder self z).

Lemma tadd_shape n m (a b : Mat R) :
  has_shape n m a -> has_shape n m b -> has_shape n m (a +t b).
Proof.
  revert n b. induction a as [|ra a IH]; intros n b Ha Hb.
  - destruct Ha as [<- _]. split; [reflexivity | constructor].
  - destruct n as [|n]; [destruct Ha; discriminate|].
    destruct b as [|rb b]; [destruct Hb; discriminate|].
    apply has_shape_cons in Ha, Hb. destruct Ha as [Hra Ha], Hb as [Hrb Hb].
    change (has_shape (S n) m (vadd radd ra rb :: (a +t b))).
    apply has_shape_cons. split; [|now apply IH].
    unfold vadd. rewrite zipWith_length. lia.
Qed.

Lemma tsub_shape n m (a b : Mat R) :
  has_shape n m a -> has_shape n m b -> has_shape n m (a -t b).
Proof.
  revert n b. induction a as [|ra a IH]; intros n b Ha Hb.
  - destruct Ha as [<- _]. split; [reflexivity | constructor].
  - destruct n as [|n]; [destruct Ha; discriminate|].
    destruct b as [|rb b]; [destruct Hb; discriminate|].
    apply has_shape_cons in Ha, Hb. destruct Ha as [Hra Ha], Hb as [Hrb Hb].
    change (has_shape (S n) m (vsub rsub ra rb :: (a -t b))).
    apply has_shape_cons. split; [|now apply IH].
    unfold vsub. rewrite zipWith_length. lia.
Qed.

Lemma zipWith_mv_shape (Js : list (Mat R)) (fx : Mat R) n m :
  length Js = n -> length fx = n -> Forall (fun J => length J = m) Js ->
  has_shape n m (zipWith mv Js fx).
Proof.
  revert fx n. induction Js as [|J Js IH]; intros fx n HJs Hfx HJ;
    simpl in HJs; subst n.
  - split; [reflexivity | constructor].
  - destruct fx as [|f0 fx]; [discriminate|].
    inversion HJ as [|? ? HJ0 HJx]; subst. simpl in Hfx.
    simpl. apply has_shape_cons. split.
    + unfold matvec. now rewrite length_map.
    + apply IH; trivial; lia.
Qed.

Lemma pde_lhs_shape (z : Mat R) :
  jacobian_shapes z ->
  has_shape (length z) (dim_z self)
    (pde_lhs rO radd rmul self (decoder self z)).
Proof.
  intros [Hf HJ]. unfold pde_lhs, vmap_jacfwd_encoder.
  apply zipWith_mv_shape; trivial.
  - unfold decoder. now rewrite !length_map.
  - apply Forall_map. exact HJ.
Qed.

Lemma mapmv_shape (A : Mat R) n (X : Mat R) :
  length A = n -> has_shape (length X) n (map (mv A) X).
Proof.
  intros HA. split; [now rewrite length_map|].
  apply Forall_forall. intros r Hin. apply in_map_iff in Hin.
  destruct Hin as [x [<- _]]. unfold matvec. now rewrite length_map.
Qed.

(** The vector field returns a tensor of the shape of the state batch it
    is given, as [odeint] requires. *)
Theorem dydt_keeps_shape measurement t z :
  dydt_shapes self measurement t z -> jacobian_shapes z ->
  has_shape (length z) (dim_z self)
    (dydt rO radd rmul rsub self measurement t z).
Proof.
  intros Hs HJ. rewrite (dydt_matvec_form Rth Hs).
  apply tadd_shape; [now apply observer_dynamics_shape|].
  unfold pde_residual. apply tsub_shape.
  - now apply pde_lhs_shape.
  - now apply pde_rhs_shape with (measurement := measurement) (t := t).
Qed.

Lemma vcancel (a b c d : Vec R) n :
  length a = n -> length b = n -> length c = n -> length d = n ->
  vadd radd (vadd radd a b) (vsub rsub c (vadd radd a d))
    = vadd radd c (vsub rsub b d).
Proof.
  revert b c d n. induction a as [|x a IH]; intros b c d n Ha Hb Hc Hd;
    simpl in Ha; subst n.
  - destruct c; [reflexivity | discriminate].
  - destruct b as [|y b], c as [|u c], d as [|v d]; try discriminate.
    simpl in *. unfold vadd, vsub in *. simpl.
    rewrite (IH b c d (length a)) by lia. f_equal. ring.
Qed.

Lemma tcancel (a b c d : Mat R) n m :
  has_shape n m a -> has_shape n m b -> has_shape n m c -> has_shape n m d ->
  (a +t b) +t (c -t (a +t d)) = c +t (b -t d).
Proof.
  revert b c d n. induction a as [|ra a IH]; intros b c d n Ha Hb Hc Hd.
  - destruct Ha as [<- _]. destruct c; [reflexivity | destruct Hc; discriminate].
  - destruct n as [|n]; [destruct Ha; discriminate|].
    destruct b as [|rb b]; [destruct Hb; discriminate|].
    destruct c as [|rc c]; [destruct Hc; discriminate|].
    destruct d as [|rd d]; [destruct Hd; discriminate|].
    apply has_shape_cons in Ha, Hb, Hc, Hd.
    destruct Ha as [Hra Ha], Hb as [Hrb Hb], Hc as [Hrc Hc], Hd as [Hrd Hd].
    unfold tadd, tsub in *. simpl.
    rewrite (IH b c d n) by trivial. f_equal.
    now apply vcancel with (n := m).
Qed.

(** Where the decoder is a right inverse of the encoder
    ([encoder(decoder(z)) = z]), the two [D] terms cancel and the corrected
    vector field is [dT/dx(x_hat)·f(x_hat) + (F·y(t) − F·h(x_hat))]: the
    system dynamics pushed through the encoder plus output injection. *)
Theorem dydt_output_injection_form measurement t z :
  dydt_shapes self measurement t z -> jacobian_shapes z ->
  encoder self (decoder self z) = z ->
  dydt rO radd rmul rsub self measurement t z =
    pde_lhs rO radd rmul self (decoder self z)
      +t (map (mv (F self)) (measurement t)
            -t map (mv (F self)) (h self (decoder self z))).
Proof.
  intros Hs HJ Hinv. rewrite (dydt_matvec_form Rth Hs).
  unfold observer_dynamics, pde_residual, pde_rhs. rewrite Hinv.
  destruct Hs as (_ & _ & [HD _] & [HF _] & Hm & Hh).
  apply tcancel with (n := length z) (m := dim_z self).
  - now apply mapmv_shape.
  - rewrite <- Hm. now apply mapmv_shape.
  - now apply pde_lhs_shape.
  - rewrite <- Hh. now apply mapmv_shape.
Qed.

End Facts.

Open Scope Z_scope.

Lemma demo_jacobian_shapes : jacobian_shapes demo_observer [[5]].
Proof. split; [reflexivity | repeat constructor]. Defined.

Lemma dydt_keeps_shape_witness :
  has_shape 1 1 (dydt 0 Z.add Z.mul Z.sub demo_observer (fun _ => [[7]]) 0 [[5]]).
Proof.
  apply (dydt_keeps_shape InitialRing.Zth demo_observer_shapes
           demo_jacobian_shapes).
Defined.

Lemma dydt_output_injection_witness :
  dydt 0 Z.add Z.mul Z.sub demo_observer (fun _ => [[7]]) 0 [[5]] = [[2]].
Proof.
  rewrite (dydt_output_injection_form InitialRing.Zth demo_observer_shapes
             demo_jacobian_shapes eq_refl).
  reflexivity.
Defined.

Close Scope Z_scope.

End CorrectedDynamics.

(** * Further properties of the training set
    (5_supervised_qqs2_meas1.py, lines 98-121 and 207-210;
     0_supervised_revduffing.py, lines 91-93) *)

Module DatasetFacts.

Import Dataset.

Section Lists.

Variable A : Type.

(** The element at an index, as a list of at most one element. *)
Definition item (l : list A) (i : nat) : list A :=
  match nth_error l i with
  | Some a => [a]
  | None => []
  end.

Lemma items_all (l : list A) :
  flat_map (item l) (seq 0 (length l)) = l.
Proof.
  induction l as [|a l IH]; [reflexivity|].
  simpl length. rewrite <- cons_seq, <- seq_shift. simpl.
  rewrite flat_map_concat_map, map_map, <- flat_map_concat_map.
  f_equal. exact IH.
Qed.

Lemma item_length (l : list A) i : i < length l -> length (item l i) = 1.
Proof.
  intros H. unfold item. destruct (nth_error l i) eqn:E; [reflexivity|].
  apply nth_error_None in E. lia.
Qed.

Lemma items_length (l : list A) (idx : list nat) :
  Forall (fun i => i < length l) idx ->
  length (flat_map (item l) idx) = length idx.
Proof.
  induction 1 as [|i idx Hi Hf IH]; simpl; [reflexivity|].
  now rewrite length_app, item_length, IH.
Qed.

Lemma firstn_concat_uniform (ls : list (list A)) T j :
  Forall (fun l => length l = T) ls ->
  firstn (j * T) (concat ls) = concat (firstn j ls)
  /\ skipn (j * T) (concat ls) = concat (skipn j ls).
Proof.
  intros Hf. revert j. induction Hf as [|l ls Hl Hf IH]; intros j.
  - rewrite firstn_nil, skipn_nil. now destruct j.
  - destruct j as [|j]; [split; reflexivity|].
    destruct (IH j) as [IH1 IH2]. simpl concat. simpl Nat.mul.
    rewrite <- Hl at 1 3. split.
    + rewrite firstn_app_2. simpl. now rewrite IH1.
    + rewrite skipn_app, skipn_all2 by lia.
      replace (length l + j * T - length l) with (j * T) by lia.
      simpl. now rewrite IH2.
Qed.

Lemma concat_map_app {B : Type} (f g : B -> list A) (js : list B) :
  Permutation (concat (map (fun j => f j ++ g j) js))
    (concat (map f js) ++ concat (map g js)).
Proof.
  induction js as [|j js IH]; simpl; [constructor|].
  rewrite <- !app_assoc. apply Permutation_app_head.
  rewrite IH. rewrite !app_assoc. apply Permutation_app_tail.
  apply Permutation_app_comm.
Qed.

End Lists.

Section Facts.

Variable Sample : Type.

Lemma select_dim1_cons (slice : list Sample) (data : Trajectories Sample) j :
  select_dim1 j (slice :: data) = item slice j ++ select_dim1 j data.
Proof. reflexivity. Qed.

Lemma columns_permutation N (data : Trajectories Sample) :
  Forall (fun slice => length slice = N) data ->
  Permutation (concat (map (fun j => select_dim1 j data) (seq 0 N)))
    (concat data).
Proof.
  induction 1 as [|slice data Hs Hf IH].
  - simpl. induction (seq 0 N); simpl; trivial.
  - rewrite (map_ext _ (fun j => item slice j ++ select_dim1 j data))
      by (intros; apply select_dim1_cons).
    rewrite concat_map_app. simpl.
    apply Permutation_app; [|exact IH].
    rewrite <- flat_map_concat_map, <- Hs, items_all. apply Permutation_refl.
Qed.

(** Flattening only reorders: every sample of the trajectory tensor is in
    the flat data exactly as often as in the tensor, and there are [N·T] of
    them. *)
Theorem flatten_trajectories_permutation T N (data : Trajectories Sample) :
  trajectory_shape T N data ->
  Permutation (flatten_trajectories data) (concat data)
  /\ length (flatten_trajectories data) = N * T.
Proof.
  intros [Hl Hf]. split.
  - unfold flatten_trajectories, cat_dim0, unbind_dim1.
    destruct data as [|slice data]; [constructor|].
    apply columns_permutation.
    inversion Hf as [|? ? Hs Hf']; subst. simpl.
    constructor; [reflexivity|].
    eapply Forall_impl; [|exact Hf']. simpl. intros a Ha. congruence.
  - destruct T as [|T].
    + destruct data; [|discriminate]. simpl. lia.
    + apply flatten_trajectories_length; [split; trivial | lia].
Qed.

(** With a number of trajectories that is a multiple of ten, the split of
    line 121 falls between two trajectories: the first seven tenths of the
    trajectories are the training set and the others the validation set,
    each whole. *)
Theorem split_keeps_whole_trajectories T k (data : Trajectories Sample)
    (generated_svl data_forward : list Sample) (perm : list nat) :
  trajectory_shape T (10 * k) data ->
  qqs2_dataset true data generated_svl data_forward perm =
    (cat_dim0 (firstn (7 * k) (unbind_dim1 data)),
     cat_dim0 (skipn (7 * k) (unbind_dim1 data))).
Proof.
  intros Hs. unfold qqs2_dataset, add_forward.
  rewrite train_test_split_unshuffled.
  destruct T as [|T].
  - destruct Hs as [Hl _]. destruct data; [|discriminate].
    simpl. now rewrite firstn_nil, skipn_nil.
  - rewrite (flatten_trajectories_length Hs) by lia.
    assert (Hn : n_test 3 10 (10 * k * S T) = 3 * k * S T).
    { unfold n_test. replace (10 * k * S T * 3 + (10 - 1))
        with (9 + (3 * k * S T) * 10) by lia.
      rewrite Nat.div_add by lia. reflexivity. }
    rewrite Hn.
    replace (10 * k * S T - 3 * k * S T) with ((7 * k) * S T) by lia.
    unfold flatten_trajectories, cat_dim0.
    destruct (firstn_concat_uniform (7 * k) (unbind_dim1_uniform Hs))
      as [-> ->].
    reflexivity.
Qed.

Lemma take_indices_perm (data : list Sample) (idx1 idx2 : list nat) :
  Permutation idx1 idx2 ->
  Permutation (take_indices idx1 data) (take_indices idx2 data).
Proof.
  intros H. unfold take_indices. now apply Permutation_flat_map.
Qed.

(** Whatever permutation the random source gives, the shuffled split of the
    reversed Duffing script puts every generated sample into exactly one
    of the two sets, and the validation set has [ceil(0.3·n)] samples. *)
Theorem shuffled_split_partitions (generated_svl : list Sample) (perm : list nat) :
  Permutation perm (seq 0 (length generated_svl)) ->
  Permutation
    (fst (revduffing_dataset generated_svl perm)
       ++ snd (revduffing_dataset generated_svl perm))
    generated_svl
  /\ length (snd (revduffing_dataset generated_svl perm))
     = n_test 3 10 (length generated_svl)
  /\ length (fst (revduffing_dataset generated_svl perm))
     = length generated_svl - n_test 3 10 (length generated_svl).
Proof.
  intros Hp. unfold revduffing_dataset, train_test_split. cbn [fst snd].
  set (n := length generated_svl). set (nte := n_test 3 10 n).
  assert (Hle : nte <= n) by apply n_test_3_10_le.
  assert (Hlen : length perm = n)
    by (rewrite (Permutation_length Hp); apply length_seq).
  assert (Hvalid : Forall (fun i => i < length generated_svl) perm).
  { apply Forall_forall. intros i Hi.
    apply (Permutation_in _ Hp), in_seq in Hi. lia. }
  assert (Hsplit : firstn nte perm ++ firstn (n - nte) (skipn nte perm) = perm).
  { rewrite (firstn_all2 (n := n - nte)) by (rewrite length_skipn; lia).
    apply firstn_skipn. }
  assert (Hv1 : Forall (fun i => i < length generated_svl) (firstn nte perm)).
  { rewrite <- Hsplit in Hvalid. now apply Forall_app in Hvalid. }
  assert (Hv2 : Forall (fun i => i < length generated_svl)
                  (firstn (n - nte) (skipn nte perm))).
  { rewrite <- Hsplit in Hvalid. now apply Forall_app in Hvalid. }
  split; [|split].
  - transitivity (take_indices perm generated_svl).
    + rewrite <- Hsplit at 3. unfold take_indices.
      rewrite flat_map_app. apply Permutation_app_comm.
    + rewrite (take_indices_perm generated_svl Hp).
      unfold take_indices. fold (item generated_svl).
      change (fun i => match nth_error generated_svl i with
                       | Some a => [a] | None => [] end)
        with (item generated_svl).
      rewrite items_all. apply Permutation_refl.
  - unfold take_indices.
    change (fun i => match nth_error generated_svl i with
                     | Some a => [a] | None => [] end)
      with (item generated_svl).
    rewrite (items_length _ Hv1), length_firstn. lia.
  - unfold take_indices.
    change (fun i => match nth_error generated_svl i with
                     | Some a => [a] | None => [] end)
      with (item generated_svl).
    rewrite (items_length _ Hv2), length_firstn, length_skipn. lia.
Qed.

End Facts.

Lemma flatten_trajectories_permutation_witness :
  Permutation (flatten_trajectories demo_trajectories)
    (concat demo_trajectories)
  /\ length (flatten_trajectories demo_trajectories) = 3 * 2.
Proof.
  apply (flatten_trajectories_permutation demo_trajectories_shape).
Defined.

(** Ten trajectories of two samples, tagged with trajectory and time. *)
Definition ten_trajectories : Trajectories (nat * nat) :=
  map (fun t => map (fun j => (j, t)) (seq 0 10)) (seq 0 2).

Lemma ten_trajectories_shape : trajectory_shape 2 (10 * 1) ten_trajectories.
Proof. split; [reflexivity | repeat constructor]. Defined.

Lemma split_keeps_whole_trajectories_witness :
  qqs2_dataset true ten_trajectories [] [] []
    = (flat_map (fun j => [(j, 0); (j, 1)]) (seq 0 7),
       flat_map (fun j => [(j, 0); (j, 1)]) (seq 7 3)).
Proof.
  rewrite (split_keeps_whole_trajectories 1 [] [] [] ten_trajectories_shape).
  reflexivity.
Defined.

Lemma demo_perm : Permutation [5; 0; 3; 1; 4; 2] (seq 0 6).
Proof.
  simpl.
  apply Permutation_sym.
  apply (Permutation_cons_app [5] [3; 1; 4; 2]).
  apply (Permutation_cons_app [5; 3] [4; 2]).
  apply (Permutation_cons_app [5; 3; 4] []).
  apply (Permutation_cons_app [5] [4]).
  apply (Permutation_cons_app [5] []).
  apply Permutation_refl.
Defined.

Lemma shuffled_split_partitions_witness :
  Permutation ([13; 11; 14; 12] ++ [15; 10]) [10; 11; 12; 13; 14; 15]
  /\ length [15; 10] = 2
  /\ length [13; 11; 14; 12] = 4.
Proof.
  apply (shuffled_split_partitions [10; 11; 12; 13; 14; 15] demo_perm).
Defined.

End DatasetFacts.

(** * Thinning the trajectories for the training plots
    (5_supervised_qqs2_meas1.py, lines 207-210) *)

Module TrainingPlot.

Import DatasetFacts.

Section Model.

Variable A : Type.

(** [int(np.ceil(N / n))] for non-negative integers. *)
Definition ceil_div (N n : nat) : nat := (N + (n - 1)) / n.

(** [l[::k]]: the entries at [0, k, 2k, ...]; a step of 0 is refused (a
    [ValueError]). *)
Definition every_kth (k : nat) (l : list A) : option (list A) :=
  if Nat.eqb k 0 then None
  else Some (flat_map (fun i => item l (i * k))
               (seq 0 (ceil_div (length l) k))).

(** Lines 208-210: [n = 1000], [N = data_ordered.shape[0]],
    [data_ordered = data_ordered[::int(np.ceil(N / n)), :, :]]. *)
Definition thin_for_plot (data_ordered : list A) : option (list A) :=
  let n := 1000 in
  let N := length data_ordered in
  every_kth (ceil_div N n) data_ordered.

End Model.

Section Facts.

Variable A : Type.

Lemma ceil_div_spec N n : 0 < n -> N <= ceil_div N n * n < N + n.
Proof.
  intros Hn. unfold ceil_div.
  pose proof (Nat.div_mod_eq (N + (n - 1)) n) as E.
  pose proof (Nat.mod_upper_bound (N + (n - 1)) n) as B.
  nia.
Qed.

Lemma ceil_div_0 n : ceil_div 0 n = 0.
Proof.
  unfold ceil_div. destruct n as [|n]; [reflexivity|].
  apply Nat.div_small. lia.
Qed.

Lemma ceil_div_pos N n : 0 < N -> 0 < n -> 0 < ceil_div N n.
Proof.
  intros HN Hn. pose proof (ceil_div_spec N Hn). nia.
Qed.

Lemma strided_items_length k (l : list A) (idx : list nat) :
  Forall (fun i => i * k < length l) idx ->
  length (flat_map (fun i => item l (i * k)) idx) = length idx.
Proof.
  induction 1 as [|i idx Hi Hf IH]; simpl; [reflexivity|].
  now rewrite length_app, item_length, IH.
Qed.

Lemma every_kth_length k (l l' : list A) :
  every_kth k l = Some l' -> length l' = ceil_div (length l) k.
Proof.
  unfold every_kth. destruct (Nat.eqb_spec k 0) as [|Hk]; [discriminate|].
  intros [= <-].
  assert (Hall : Forall (fun i => i * k < length l)
                   (seq 0 (ceil_div (length l) k))).
  { apply Forall_forall. intros i Hi. apply in_seq in Hi.
    pose proof (ceil_div_spec (length l) (n := k)). nia. }
  now rewrite (@strided_items_length k l _ Hall), length_seq.
Qed.

Lemma every_kth_hd k (l l' : list A) :
  every_kth k l = Some l' -> hd_error l' = hd_error l.
Proof.
  unfold every_kth. destruct (Nat.eqb_spec k 0) as [|Hk]; [discriminate|].
  intros [= <-]. destruct l as [|a l].
  - simpl length. now rewrite ceil_div_0.
  - assert (Hp : 0 < ceil_div (length (a :: l)) k)
      by (apply ceil_div_pos; simpl; lia).
    destruct (ceil_div (length (a :: l)) k) as [|c]; [lia|]. reflexivity.
Qed.

(** The thinning keeps at most 1000 of the time steps, the first one among
    them, and all of them when there are at most 1000; it is refused
    exactly for a tensor without time steps. *)
Theorem thin_for_plot_at_most_1000 (data_ordered : list A) :
  (thin_for_plot data_ordered = None <-> data_ordered = [])
  /\ forall kept,
       thin_for_plot data_ordered = Some kept ->
       length kept <= 1000
       /\ hd_error kept = hd_error data_ordered
       /\ (length data_ordered <= 1000 -> kept = data_ordered).
Proof.
  unfold thin_for_plot. split.
  - unfold every_kth. destruct data_ordered as [|a l].
    + rewrite ceil_div_0. simpl. split; reflexivity.
    + pose proof (@ceil_div_pos (length (a :: l)) 1000) as Hp.
      destruct (Nat.eqb_spec (ceil_div (length (a :: l)) 1000) 0) as [E|E].
      * simpl length in *. lia.
      * split; discriminate.
  - intros kept Hk.
    pose proof (every_kth_length _ _ Hk) as Hlen.
    pose proof (every_kth_hd _ _ Hk) as Hhd.
    remember (length data_ordered) as N eqn:EN.
    remember (ceil_div N 1000) as k eqn:Ek.
    unfold every_kth in Hk.
    destruct (Nat.eqb_spec k 0) as [|Hk0]; [discriminate|].
    injection Hk as Hk.
    pose proof (@ceil_div_spec N 1000) as HkN. rewrite <- Ek in HkN.
    pose proof (@ceil_div_spec N k) as Hc. rewrite <- Hlen in Hc.
    split; [nia|]. split; [exact Hhd|].
    intros Hsmall. assert (Hk1 : k = 1) by nia. subst kept. rewrite Hk1.
    assert (Hc1 : ceil_div N 1 = N)
      by (unfold ceil_div; simpl; rewrite Nat.add_0_r; apply Nat.div_1_r).
    rewrite <- EN, Hc1, EN.
    rewrite (flat_map_ext _ (item data_ordered))
      by (intros i; now rewrite Nat.mul_1_r).
    apply items_all.
Qed.

End Facts.

Example thin_for_plot_2500 :
  option_map (@length nat) (thin_for_plot (seq 0 2500)) = Some 834
  /\ option_map (firstn 3) (thin_for_plot (seq 0 2500)) = Some [0; 3; 6].
Proof. split; vm_compute; reflexivity. Qed.

End TrainingPlot.

(** * Saving and reloading the gradients
    (0_supervised_revduffing.py, lines 293-321 and 326-344) *)

Module GradientFiles.

Section Model.

(** A number as a CSV cell holds it. *)
Variable A : Type.

(** A CSV file written by [pd.DataFrame(m).to_csv(path, header=False)]:
    one line per row, the row's index in front of its cells. *)
Definition CsvFile := list (nat * list A).

Definition to_csv (m : Mat A) : CsvFile := combine (seq 0 (length m)) m.

(** [df = pd.read_csv(path, sep=',', header=None)] followed by
    [df.drop(df.columns[0], axis=1).values]: the cells without the first
    column; [read_csv] refuses a file without lines. *)
Definition read_without_index (file : CsvFile) : option (Mat A) :=
  match file with
  | [] => None
  | _ => Some (map snd file)
  end.

(** [t.flatten(1, -1)] on a batch of matrices: each matrix becomes one row,
    its rows one after the other. *)
Definition flatten_1 (batch : list (Mat A)) : Mat A := map (@concat A) batch.





(** Lines 302 and 314-319: [Tmax = dTdx[idx_max]] and the two files
    [Tmax.csv] and [dTdx.csv]; [None] for an index outside the batch. *)
Definition save_gradients (dTdx : list (Mat A)) (idx_max : nat)
    : option (CsvFile * CsvFile) :=
  match nth_error dTdx idx_max with
  | None => None
  | Some Tmax => Some (to_csv Tmax, to_csv (flatten_1 dTdx))
  end.



End Model.

Section Facts.

Variable A : Type.










(** Reading fails on the file of a tensor without rows, which
    [to_csv] writes without a line. *)
Lemma empty_file_not_read : read_without_index (to_csv (@nil (list A))) = None.
Proof. reflexivity. Qed.

End Facts.


Example save_gradients_demo :
  save_gradients [[[1; 2]; [3; 4]]; [[5; 6]; [7; 8]]] 1
    = Some ([(0, [5; 6]); (1, [7; 8])],
            [(0, [1; 2; 3; 4]); (1, [5; 6; 7; 8])]).
Proof. reflexivity. Qed.

End GradientFiles.

(** * Which names the scripts have bound when they read them *)

Module Names.

Import String.
Local Open Scope string_scope.

(** A statement of a script, as far as names go: the names it reads, in
    the order Python evaluates them, and the names it binds afterwards.  A
    flag is a name bound to [True] or [False]; an [if] on a flag runs one
    of its two blocks. *)
Inductive Stmt : Type :=
| Exec (line : nat) (reads binds : list string)
| SetFlag (line : nat) (name : string) (value : bool)
| IfFlag (line : nat) (name : string) (then_ else_ : list Stmt).

(** The names bound so far, the latest first, with the value of a flag. *)
Definition Env := list (string * option bool).

Inductive Outcome : Type :=
| Finished (env : Env)
| NameError (line : nat) (name : string)
| NotAFlag (line : nat) (name : string).

Fixpoint lookup (env : Env) (name : string) : option (option bool) :=
  match env with
  | [] => None
  | (n, v) :: env' => if String.eqb n name then Some v else lookup env' name
  end.

(** The first name of [reads] that is not bound. *)
Fixpoint first_unbound (env : Env) (reads : list string) : option string :=
  match reads with
  | [] => None
  | n :: reads' =>
      match lookup env n with
      | None => Some n
      | Some _ => first_unbound env reads'
      end
  end.

Definition bind_all (env : Env) (binds : list string) : Env :=
  fold_left (fun e n => (n, None) :: e) binds env.

Fixpoint exec (s : Stmt) (env : Env) : Outcome :=
  let run :=
    fix run (block : list Stmt) (env : Env) : Outcome :=
      match block with
      | [] => Finished env
      | s :: block' =>
          match exec s env with
          | Finished env' => run block' env'
          | stop => stop
          end
      end in
  match s with
  | Exec line reads binds =>
      match first_unbound env reads with
      | Some n => NameError line n
      | None => Finished (bind_all env binds)
      end
  | SetFlag _ name value => Finished ((name, Some value) :: env)
  | IfFlag line name then_ else_ =>
      match lookup env name with
      | None => NameError line name
      | Some None => NotAFlag line name
      | Some (Some true) => run then_ env
      | Some (Some false) => run else_ env
      end
  end.

Fixpoint run (block : list Stmt) (env : Env) : Outcome :=
  match block with
  | [] => Finished env
  | s :: block' =>
      match exec s env with
      | Finished env' => run block' env'
      | stop => stop
      end
  end.

(** The built-in names the scripts use. *)
Definition builtins : Env :=
  map (fun n => (n, None))
    ["__name__"; "str"; "print"; "open"; "float"; "int"; "range"].

(** [Learner(observer=observer, system=system, training_data=data, ...)]:
    the names of lines 124-136 and 179-191, and of lines 161-173 of the
    Quanser Qube script. *)
Definition Learner_call : list string :=
  ["Learner"; "observer"; "system"; "data"; "val_data"; "batch_size";
   "init_learning_rate"; "optim_method"; "optimizer_options";
   "scheduler_method"; "scheduler_options"].

(** [pl.Trainer(callbacks=[stopper, checkpoint_callback],
    **trainer_options, logger=logger, ...)]. *)
Definition Trainer_call : list string :=
  ["pl"; "stopper"; "checkpoint_callback"; "trainer_options"; "logger"].

(** ** 0_supervised_revduffing.py, lines 1-236 *)

Definition revduffing_imports : list Stmt :=
  [ Exec 3 [] ["os"]; Exec 4 [] ["pathlib"]; Exec 5 [] ["sys"];
    Exec 7 [] ["plt"]; Exec 8 [] ["np"]; Exec 9 [] ["pd"];
    Exec 10 [] ["sb"]; Exec 12 [] ["torch"]; Exec 13 [] ["nn"];
    Exec 14 [] ["vmap"; "jacfwd"; "jacrev"];
    Exec 19 ["sb"] [];
    Exec 20 [] ["plot_params"];
    Exec 33 ["plt"; "plot_params"] [];
    Exec 36 ["str"; "pathlib"] ["working_path"];
    Exec 37 ["sys"; "working_path"] [];
    Exec 40 [] ["Learner"]; Exec 41 [] ["RevDuffing"];
    Exec 42 [] ["LuenbergerObserver"];
    Exec 45 [] ["pl"]; Exec 46 [] ["ModelCheckpoint"];
    Exec 47 [] ["TensorBoardLogger"]; Exec 48 [] ["train_test_split"];
    Exec 49 [] ["optim"] ].

Definition revduffing_train : list Stmt :=
  [ Exec 78 ["LuenbergerObserver"; "system"; "system"; "learning_method";
             "wc"; "activation"; "num_hl"; "size_hl"; "solver_options"]
            ["observer"];
    Exec 88 ["observer"; "system"] [];
    Exec 91 ["observer"; "x_limits"; "num_samples"] ["data"];
    Exec 93 ["train_test_split"; "data"] ["data"; "val_data"];
    Exec 100 [] ["num_epochs"];
    Exec 101 ["num_epochs"] ["trainer_options"];
    Exec 102 [] ["batch_size"];
    Exec 103 [] ["init_learning_rate"];
    Exec 106 ["optim"] ["optim_method"];
    Exec 107 [] ["optimizer_options"];
    Exec 110 ["optim"] ["scheduler_method"];
    Exec 111 [] ["scheduler_options"];
    Exec 118 ["pl"] ["stopper"];
    Exec 124 Learner_call ["learner_T"];
    Exec 139 ["TensorBoardLogger"; "learner_T"] ["logger"];
    Exec 141 ["ModelCheckpoint"] ["checkpoint_callback"];
    Exec 142 Trainer_call ["trainer"];
    Exec 151 ["print"; "learner_T"] [];
    Exec 154 ["trainer"; "learner_T"] [];
    Exec 160 ["learner_T"; "x_limits"; "checkpoint_callback"] [];
    Exec 165 ["optim"] ["scheduler_method"];
    Exec 166 [] ["scheduler_options"];
    Exec 173 ["pl"] ["stopper"];
    Exec 179 Learner_call ["learner_T_star"];
    Exec 194 ["TensorBoardLogger"; "learner_T_star"] ["logger"];
    Exec 196 ["ModelCheckpoint"] ["checkpoint_callback"];
    Exec 197 Trainer_call ["trainer"];
    Exec 206 ["print"; "learner_T_star"] [];
    Exec 209 ["trainer"; "learner_T_star"] [] ].

Definition revduffing_load : list Stmt :=
  [ Exec 213 [] ["path"];
    Exec 215 ["path"] ["learner_path"];
    Exec 216 [] ["pkl"];
    Exec 218 ["open"; "learner_path"] ["rb_file"];
    Exec 219 ["pkl"; "rb_file"] ["learner_T_star"];
    Exec 220 ["path"; "learner_T_star"] [];
    Exec 221 ["learner_T_star"] ["observer"];
    SetFlag 222 "verbose" false;
    SetFlag 223 "gradient_plots" false;
    SetFlag 224 "save" true;
    SetFlag 225 "correct_dyns" true ].

(** The script with the flag of line 53 set to [TRAIN]; [gradient_section]
    stands for the lines 237-418 under [if gradient_plots:]. *)
Definition revduffing_script (TRAIN : bool) (gradient_section : list Stmt)
    : list Stmt :=
  revduffing_imports ++
  [ Exec 51 ["__name__"] [];
    SetFlag 53 "TRAIN" TRAIN;
    Exec 60 [] ["learning_method"];
    Exec 61 [] ["num_hl"];
    Exec 62 [] ["size_hl"];
    Exec 63 ["nn"] ["activation"];
    Exec 66 ["RevDuffing"] ["system"];
    Exec 69 [] ["wc"];
    Exec 70 ["np"] ["x_limits"];
    Exec 71 [] ["num_samples"];
    Exec 74 [] ["solver_options"];
    IfFlag 76 "TRAIN" revduffing_train revduffing_load;
    Exec 231 ["learner_T_star"; "x_limits"; "checkpoint_callback"] [];
    IfFlag 236 "gradient_plots" gradient_section [] ].

(** Whether the script is set to train or to load, it stops with a
    [NameError] before the gradient section: when training, on
    [gradient_plots] (bound only by the loading branch); when loading, on
    [checkpoint_callback] (bound only by the training branch). *)
Theorem revduffing_script_never_plots_gradients (TRAIN : bool)
    (gradient_section : list Stmt) :
  run (revduffing_script TRAIN gradient_section) builtins =
    if TRAIN then NameError 236 "gradient_plots"
    else NameError 231 "checkpoint_callback".
Proof.
  destruct TRAIN; reflexivity.
Qed.

(** ** 5_supervised_qqs2_meas1.py, lines 1-255 *)

Definition qqs2_imports : list Stmt :=
  [ Exec 4 [] ["copy"]; Exec 5 [] ["pathlib"]; Exec 6 [] ["sys"];
    Exec 8 [] ["np"]; Exec 9 [] ["torch"]; Exec 10 [] ["nn"];
    Exec 13 ["str"; "pathlib"] ["working_path"];
    Exec 14 ["sys"; "working_path"] [];
    Exec 17 [] ["Learner"]; Exec 18 [] ["QuanserQubeServo2_meas1"];
    Exec 19 [] ["LuenbergerObserver"]; Exec 20 [] ["RMSE"];
    Exec 21 [] ["EKF_ODE"; "interpolate_func"; "dynamics_traj_observer"];
    Exec 25 [] ["pl"]; Exec 26 [] ["ModelCheckpoint"];
    Exec 27 [] ["TensorBoardLogger"]; Exec 28 [] ["train_test_split"];
    Exec 29 [] ["optim"]; Exec 30 [] ["os"]; Exec 31 [] ["plt"] ].

(** Lines 106-111 and 115-120: the forward trajectory added to the data. *)
Definition qqs2_add_forward (line : nat) : Stmt :=
  IfFlag line "add_forward"
    [ Exec (line + 1) ["torch"; "observer"] ["init"];
      Exec (line + 2) ["observer"; "init"; "dt"] ["data_forward"];
      Exec (line + 5) ["torch"; "data"; "data_forward"] ["data"] ]
    [].

(** Lines 211-215 and their three repetitions: one plot of the training
    data. *)
Definition qqs2_plot (line : nat) : list Stmt :=
  [ Exec line ["plt"; "data_ordered"] [];
    Exec (line + 1) ["plt"] [];
    Exec (line + 2) ["plt"; "os"; "learner"] [];
    Exec (line + 3) ["plt"] [];
    Exec (line + 4) ["plt"] [] ].

Definition qqs2_train : list Stmt :=
  [ Exec 85 ["LuenbergerObserver"; "system"; "system"; "learning_method";
             "wc"; "D"; "activation"; "num_hl"; "size_hl"; "solver_options"]
            ["observer"];
    Exec 96 ["observer"; "system"] [];
    IfFlag 99 "traj_data"
      [ Exec 100 ["observer"; "x_limits"; "num_initial_conditions"; "tsim"; "dt"]
                 ["data"];
        Exec 104 ["copy"; "data"] ["data_ordered"];
        Exec 105 ["torch"; "torch"; "data"] ["data"];
        qqs2_add_forward 106 ]
      [ Exec 113 ["observer"; "x_limits"; "num_samples"] ["data"];
        qqs2_add_forward 115 ];
    Exec 121 ["train_test_split"; "data"] ["data"; "val_data"];
    Exec 123 ["print"; "data"] [];
    Exec 130 [] ["num_epochs"];
    Exec 131 ["num_epochs"] ["trainer_options"];
    IfFlag 132 "traj_data"
      [ Exec 133 [] ["batch_size"]; Exec 134 [] ["init_learning_rate"] ]
      [ Exec 136 [] ["batch_size"]; Exec 137 [] ["init_learning_rate"] ];
    Exec 140 ["optim"] ["optim_method"];
    IfFlag 141 "traj_data"
      [ Exec 142 [] ["optimizer_options"] ]
      [ Exec 144 [] ["optimizer_options"] ];
    Exec 147 ["optim"] ["scheduler_method"];
    Exec 148 [] ["scheduler_options"];
    Exec 155 ["pl"] ["stopper"];
    Exec 161 Learner_call ["learner"];
    Exec 174 ["traj_data"; "learner"] [];
    Exec 175 ["x_limits"; "learner"] [];
    Exec 176 ["add_forward"; "learner"] [];
    Exec 177 ["dt"; "learner"] [];
    IfFlag 178 "traj_data"
      [ Exec 179 ["num_initial_conditions"; "learner"] [] ]
      [ Exec 181 ["num_samples"; "learner"] [] ];
    Exec 184 ["TensorBoardLogger"; "learner"] ["logger"];
    Exec 185 ["ModelCheckpoint"] ["checkpoint_callback"];
    Exec 186 Trainer_call ["trainer"];
    Exec 195 ["print"; "learner"] [];
    Exec 201 ["trainer"; "learner"] [];
    Exec 204 ["print"; "learner"] [];
    IfFlag 207 "traj_data"
      ([ Exec 208 [] ["n"];
         Exec 209 ["data_ordered"] ["N"];
         Exec 210 ["data_ordered"; "int"; "np"; "N"; "n"] ["data_ordered"] ]
       ++ qqs2_plot 211 ++ qqs2_plot 216
       ++ [ Exec 221 ["plt"; "data_ordered"] [];
            Exec 222 ["plt"] [];
            Exec 223 ["plt"; "os"; "learner"] [];
            Exec 225 ["plt"] [];
            Exec 226 ["plt"] [];
            Exec 227 ["plt"; "data_ordered"] [];
            Exec 228 ["plt"] [];
            Exec 229 ["plt"; "os"; "learner"] [];
            Exec 231 ["plt"] [];
            Exec 232 ["plt"] [] ])
      [] ].

Definition qqs2_load : list Stmt :=
  [ Exec 236 [] ["path"];
    Exec 237 ["path"] ["learner_path"];
    Exec 238 [] ["pkl"];
    Exec 239 ["open"; "learner_path"] ["rb_file"];
    Exec 240 ["pkl"; "rb_file"] ["learner"];
    Exec 241 ["path"; "learner"] [];
    Exec 242 ["learner"] ["observer"] ].

(** The script up to the call of [save_results], with the flags of lines
    47, 64 and 65 set to the given values. *)
Definition qqs2_script (TRAIN traj_data add_forward : bool) : list Stmt :=
  qqs2_imports ++
  [ Exec 45 ["__name__"] [];
    SetFlag 47 "TRAIN" TRAIN;
    Exec 53 [] ["learning_method"];
    Exec 54 [] ["num_hl"];
    Exec 55 [] ["size_hl"];
    Exec 56 ["nn"] ["activation"];
    Exec 59 ["QuanserQubeServo2_meas1"] ["system"];
    Exec 62 [] ["dt"];
    Exec 63 [] ["tsim"];
    SetFlag 64 "traj_data" traj_data;
    SetFlag 65 "add_forward" add_forward;
    IfFlag 66 "traj_data"
      [ Exec 67 [] ["num_initial_conditions"];
        Exec 68 ["np"] ["x_limits"] ]
      [ Exec 71 ["int"] ["num_samples"];
        Exec 72 ["np"; "np"] ["x_limits"] ];
    Exec 75 ["float"; "sys"] ["wc"];
    Exec 76 ["print"; "wc"] [];
    Exec 77 [] ["D"];
    Exec 81 [] ["solver_options"];
    IfFlag 83 "TRAIN" qqs2_train qqs2_load;
    Exec 249 [] ["dt"];
    Exec 250 [] ["tsim"];
    Exec 251 ["torch"] [];
    Exec 252 ["learner"; "x_limits"; "tsim"; "dt"; "checkpoint_callback"] [] ].

Definition finished (o : Outcome) : bool :=
  match o with
  | Finished _ => true
  | _ => false
  end.

(** Set to train, the Quanser Qube script reads no unbound name up to the
    call of [save_results], whether the data come from trajectories or not
    and with or without the forward trajectory; set to load, it stops in
    that call with a [NameError] on [checkpoint_callback], which only the
    training branch binds. *)
Theorem qqs2_script_names (traj_data add_forward : bool) :
  finished (run (qqs2_script true traj_data add_forward) builtins) = true
  /\ run (qqs2_script false traj_data add_forward) builtins
     = NameError 252 "checkpoint_callback".
Proof.
  destruct traj_data, add_forward; split; reflexivity.
Qed.

End Names.
